(** * netlog: a shallow embedding of [log.py]

    The program gathers network measurements (TCP connect, SSL handshake,
    HTTP request, ping), collects them in a [Metrics] object and ships the
    pickled list to a graphite collector once per period.

    Conventions of the embedding:
    - a [datetime] is the number of microseconds since 1970-01-01 (naive
      UTC), a [timedelta] a number of microseconds, both in [Z];
    - the only floats the program builds are results of
      [timedelta.total_seconds()]; such a float is kept as the microsecond
      count it was computed from;
    - Python 2 [str] is [string] (a byte string), raw bytes are
      [list Byte.byte];
    - calls that leave the process (sockets, urllib2, the ping utility, the
      clock) take their outcome from an environment record, and what the
      process does to the outside (log records, sleeps, bytes sent, sockets
      closed) is appended to a trace of events. *)

From Stdlib Require Import ZArith List String Ascii Bool Lia.
From Stdlib Require Import Permutation.
From Stdlib Require Import Numbers.DecimalString.
From Stdlib Require Import Strings.Byte.
Import ListNotations.

Open Scope string_scope.
Open Scope Z_scope.

(** ** Python values *)

Definition datetime := Z.
Definition timedelta := Z.

(** [datetime.datetime(1970,1,1)] *)
Definition epoch : datetime := 0.

(** The float [us / 10**6] returned by [timedelta.total_seconds()]. *)
Inductive pyfloat : Type :=
| SecondsOfMicro (us : Z).

Definition total_seconds (d : timedelta) : pyfloat := SecondsOfMicro d.

(** The values the program stores in a sample. *)
Inductive pyval : Type :=
| PyInt (n : Z)
| PyFloat (f : pyfloat)
| PyStr (s : string).

Definition is_float (v : pyval) : bool :=
  match v with
  | PyFloat _ => true
  | _ => false
  end.

(** The arguments the program passes to [Prefixed]: a server name, a scheme
    or an identifier (str), or a port (int). *)
Inductive prefix_arg : Type :=
| PfxStr (s : string)
| PfxInt (n : Z).

(** [str(n)] for an int. *)
Definition str_of_int (n : Z) : string :=
  NilZero.string_of_int (Z.to_int n).

(** ["%s." % prefix] *)
Definition format_prefix (p : prefix_arg) : string :=
  match p with
  | PfxStr s => s ++ "."
  | PfxInt n => str_of_int n ++ "."
  end.

(** The join of the formatted prefixes with the empty separator. *)
Fixpoint join_empty (l : list string) : string :=
  match l with
  | [] => EmptyString
  | s :: l' => s ++ join_empty l'
  end.

(** ** class Metrics *)

Module Metrics.

(** One element of [self.metrics]: [(param, (seconds, value))]. *)
Definition metric : Type := string * (pyfloat * pyval).

(** The object holds one list; [Metrics()] starts with the empty one. *)
Definition t : Type := list metric.

Definition init : t := [].

(** [Add]: append [(param, ((time - epoch).total_seconds(), value))]. *)
Definition Add (self : t) (param : string) (value : pyval) (time : datetime) : t :=
  (self ++ [(param, (total_seconds (time - epoch), value))])%list.

(** [__add__] *)
Definition add (self other : t) : t := (self ++ other)%list.

Definition prefix_str (prefixes : list prefix_arg) : string :=
  join_empty (map format_prefix prefixes).

(** [Prefixed] *)
Definition Prefixed (self : t) (prefixes : list prefix_arg) : t :=
  map (fun m : metric => (prefix_str prefixes ++ fst m, snd m)) self.

(** Accessors used in statements. *)
Definition name (m : metric) : string := fst m.
Definition timestamp (m : metric) : pyfloat := fst (snd m).
Definition value (m : metric) : pyval := snd (snd m).

End Metrics.

(** ** Exceptions, outcomes and the trace of effects *)

(** [e.reason] of a [urllib2.URLError]: a [socket.timeout] or anything else. *)
Inductive url_reason : Type :=
| ReasonTimeout
| ReasonOther.

(** The exceptions the program meets. [SocketError] stands for a
    [socket.error] that is not a [socket.timeout]; [HTTPError] carries the
    status code of the error response. *)
Inductive exn : Type :=
| SocketTimeout
| SocketError
| SSLError
| HTTPError (code : Z)
| URLError (reason : url_reason)
| CalledProcessError (returncode : Z)
| StructError
| UnboundLocalError
| AttributeError
| TypeError
| OtherError (what : string).

Inductive result (A : Type) : Type :=
| Ret (a : A)
| Raise (e : exn).

Arguments Ret {A} a.
Arguments Raise {A} e.

Inductive level : Type := DEBUG | INFO | WARNING | ERROR.

(** What the process does to the outside. A log record is kept as its level
    and its format string. *)
Inductive event : Type :=
| Log (l : level) (fmt : string)
| Sleep (d : timedelta)
| Sendall (data : list byte)
| Close.

Definition trace : Type := list event.

(** A computation reads the trace so far and returns an outcome and the
    extended trace. *)
Definition M (A : Type) : Type := trace -> result A * trace.

Definition ret {A : Type} (a : A) : M A := fun tr => (Ret a, tr).

Definition raise {A : Type} (e : exn) : M A := fun tr => (Raise e, tr).

Definition bind {A B : Type} (c : M A) (k : A -> M B) : M B :=
  fun tr =>
    match c tr with
    | (Ret a, tr') => k a tr'
    | (Raise e, tr') => (Raise e, tr')
    end.

Definition emit (e : event) : M unit := fun tr => (Ret tt, (tr ++ [e])%list).

(** The outcome of an outside call, taken from the environment. *)
Definition lift {A : Type} (r : result A) : M A := fun tr => (r, tr).

(** [try: c except <handled>: h]: [handler e] is [Some h] when a clause
    catches [e]. *)
Definition try_except {A : Type} (c : M A) (handler : exn -> option (M A)) : M A :=
  fun tr =>
    match c tr with
    | (Ret a, tr') => (Ret a, tr')
    | (Raise e, tr') =>
        match handler e with
        | Some h => h tr'
        | None => (Raise e, tr')
        end
    end.

Notation "x <- c ;; k" := (bind c (fun x => k))
  (at level 61, c at next level, right associativity).
Notation "c ;;; k" := (bind c (fun _ => k))
  (at level 61, right associativity).

Definition logger_debug (fmt : string) : M unit := emit (Log DEBUG fmt).
Definition logger_info (fmt : string) : M unit := emit (Log INFO fmt).
Definition logger_warning (fmt : string) : M unit := emit (Log WARNING fmt).
Definition logger_error (fmt : string) : M unit := emit (Log ERROR fmt).

(** Run a computation from the empty trace. *)
Definition run {A : Type} (c : M A) : result A * trace := c [].

(** ** struct.pack("!L", n) *)

Definition byte_of_Z (z : Z) : byte :=
  match Byte.of_N (Z.to_N (z mod 256)) with
  | Some b => b
  | None => x00
  end.

Definition Z_of_byte (b : byte) : Z := Z.of_N (Byte.to_N b).

(** Four bytes, most significant first; [struct.error] outside [0, 2**32). *)
Definition struct_pack_L (n : Z) : result (list byte) :=
  if (0 <=? n) && (n <? 2 ^ 32) then
    Ret [byte_of_Z (Z.shiftr n 24); byte_of_Z (Z.shiftr n 16);
         byte_of_Z (Z.shiftr n 8); byte_of_Z n]
  else Raise StructError.

(** The unsigned number a big-endian byte sequence denotes. *)
Definition big_endian (bs : list byte) : Z :=
  fold_left (fun acc b => acc * 256 + Z_of_byte b) bs 0.

(** ** The command line *)

Definition server_t : Type := string * string.

Record Args : Type := {
  timeout : Z;
  graphite : string;
  graphite_port : Z;
  period : timedelta;
  server : list server_t;
  sock_port : list Z;
  ssl_port : list Z;
  scheme : list string;
  host : option string;
  user : option string;
  path : string;
  ping : bool;
  identifier : string
}.

(** Truth value of an optional str: [None] and the empty str are false. *)
Definition truthy (o : option string) : bool :=
  match o with
  | Some (String _ _) => true
  | _ => false
  end.

(** ** The ping summary line

    [re.search] on a byte string with the pattern of [GatherPingMetrics]:
    the literal [rtt min/avg/max/mdev = ], then four named groups [min],
    [avg], [max], [mdev], each a greedy star of the class of digits and dot,
    separated by [/], then the literal [ ms]. The search returns the
    leftmost position where the pattern matches. The character after a
    group is never in the class, so a position has at most one match and the
    search does not backtrack inside a position. *)

(** The class of ASCII digits and dot. *)
Definition is_digit_or_dot (c : ascii) : bool :=
  let n := N_of_ascii c in
  (((48 <=? n) && (n <=? 57)) || (n =? 46))%N.

Fixpoint all_class (s : string) : bool :=
  match s with
  | EmptyString => true
  | String c s' => is_digit_or_dot c && all_class s'
  end.

(** The longest prefix in the class, and what follows it. *)
Fixpoint span_class (s : string) : string * string :=
  match s with
  | EmptyString => (EmptyString, EmptyString)
  | String c s' =>
      if is_digit_or_dot c
      then let (a, r) := span_class s' in (String c a, r)
      else (EmptyString, s)
  end.

(** The text after a group does not begin with a character of the class. *)
Definition starts_outside (r : string) : bool :=
  match r with
  | EmptyString => true
  | String c _ => negb (is_digit_or_dot c)
  end.

(** [Some r] when [s = p ++ r]. *)
Fixpoint strip_prefix (p s : string) : option string :=
  match p, s with
  | EmptyString, _ => Some s
  | String a p', String b s' =>
      if Ascii.eqb a b then strip_prefix p' s' else None
  | String _ _, EmptyString => None
  end.

Definition rtt_literal : string := "rtt min/avg/max/mdev = ".

(** The four groups, in the order of the pattern. *)
Definition groups : Type := string * string * string * string.

(** The pattern matched at the start of [s]. *)
Definition match_here (s : string) : option groups :=
  match strip_prefix rtt_literal s with
  | None => None
  | Some r0 =>
      let (a, r1) := span_class r0 in
      match strip_prefix "/" r1 with
      | None => None
      | Some r2 =>
          let (b, r3) := span_class r2 in
          match strip_prefix "/" r3 with
          | None => None
          | Some r4 =>
              let (c, r5) := span_class r4 in
              match strip_prefix "/" r5 with
              | None => None
              | Some r6 =>
                  let (d, r7) := span_class r6 in
                  match strip_prefix " ms" r7 with
                  | None => None
                  | Some _ => Some (a, b, c, d)
                  end
              end
          end
      end
  end.

(** [re.search]: [None] when no position matches. *)
Fixpoint re_search (s : string) : option groups :=
  match match_here s with
  | Some g => Some g
  | None =>
      match s with
      | EmptyString => None
      | String _ s' => re_search s'
      end
  end.

(** [match.groupdict()], as the association of group names to texts. *)
Definition groupdict (g : groups) : list (string * string) :=
  let '(a, b, c, d) := g in
  [("min", a); ("avg", b); ("max", c); ("mdev", d)].

(** The text the pattern denotes for given groups. *)
Definition summary_line (a b c d : string) : string :=
  rtt_literal ++ a ++ "/" ++ b ++ "/" ++ c ++ "/" ++ d ++ " ms".

(** The output contains a match of the pattern. *)
Definition contains_summary (output : string) : Prop :=
  exists pre a b c d post,
    output = pre ++ summary_line a b c d ++ post /\
    all_class a = true /\ all_class b = true /\
    all_class c = true /\ all_class d = true.

(** ** Environments: the outcomes of the calls that leave the process *)

(** [SendMetrics]: [socket.create_connection] and [sock.sendall]. *)
Record SendEnv : Type := {
  send_connect : result unit;
  send_sendall : result unit
}.

(** [GatherServerSocketMetrics]: the clock at its three readings, the
    connection attempt, and [ssl.wrap_socket]; the wrapped socket is known
    by what [getpeercert(True)] returns on it, the certificate in binary
    form or [None]. *)
Record SockEnv : Type := {
  sock_start : datetime;
  sock_connect : result unit;
  sock_connected_at : datetime;
  ssl_wrap : result (option (list byte));
  ssl_done_at : datetime
}.

Record Request : Type := {
  url : string;
  headers : list (string * string)
}.

(** [GatherServerHttpMetrics]: [urllib2.urlopen] gives the status code of
    the response or raises; then the two reads and the clock. *)
Record HttpEnv : Type := {
  http_start : datetime;
  http_urlopen : Request -> Z -> result Z;
  http_read1 : result string;
  http_first_at : datetime;
  http_read_rest : result string;
  http_last_at : datetime
}.

(** [GatherPingMetrics]: [subprocess.check_output] on the argument vector. *)
Record PingEnv : Type := {
  ping_start : datetime;
  ping_check_output : list string -> result string
}.

(** One cycle of the main loop: every probe's environment, the send, and the
    clock read after [LoopOnce]. *)
Record CycleEnv : Type := {
  env_http : string -> server_t -> HttpEnv;
  env_sock : server_t -> Z -> bool -> SockEnv;
  env_ping : server_t -> PingEnv;
  env_send : SendEnv;
  env_now : datetime
}.

Section Program.

(** Library functions the program calls and this development does not
    look into. *)
Variable pickle_dumps : Metrics.t -> list byte.
Variable b64encode : string -> string.

(** [dict.items()]: the pairs of the dict in an order the language does
    not fix. *)
Variable dict_items : list (string * string) -> list (string * string).

(** *** Metrics.Serialize *)

Definition Serialize (self : Metrics.t) : result (list byte) :=
  let payload := pickle_dumps self in
  match struct_pack_L (Z.of_nat (List.length payload)) with
  | Ret header => Ret (header ++ payload)%list
  | Raise e => Raise e
  end.

(** *** SendMetrics *)

Definition SendMetrics (metrics : Metrics.t) (graphite_server : string * Z)
           (env : SendEnv) : M unit :=
  logger_info "sending metrics to %s:%d" ;;;
  logger_debug "metrics: %r" ;;;
  serialized_metrics <- lift (Serialize metrics) ;;
  logger_debug "serialized as: %r" ;;;
  lift (send_connect env) ;;;
  lift (send_sendall env) ;;;
  emit (Sendall serialized_metrics) ;;;
  emit Close.

(** *** GatherServerSocketMetrics *)

(** A [try] whose handlers return from the function: [inr] is the value
    returned early, [inl] the state to go on with. *)
Definition GatherServerSocketMetrics (args : Args) (server : server_t)
           (port : Z) (do_ssl : bool) (env : SockEnv) : M Metrics.t :=
  let metrics := Metrics.init in
  let start := sock_start env in
  let prefixes := [PfxStr (fst server); PfxInt port] in
  logger_info "Trying TCP connect to %s:%d" ;;;
  r <- try_except
         (lift (sock_connect env) ;;; ret (inl tt))
         (fun e =>
            match e with
            | SocketTimeout =>
                Some (logger_warning "Timeout" ;;;
                      let metrics := Metrics.Add metrics "timeout" (PyInt 1) start in
                      ret (inr (Metrics.Prefixed metrics prefixes)))
            | SocketError =>
                Some (logger_error "Failed" ;;;
                      let metrics := Metrics.Add metrics "errors" (PyInt 1) start in
                      ret (inr (Metrics.Prefixed metrics prefixes)))
            | _ => None
            end) ;;
  match r with
  | inr early => ret early
  | inl _ =>
      let metrics :=
        Metrics.Add metrics "connect_time"
          (PyFloat (total_seconds (sock_connected_at env - start))) start in
      metrics <-
        (if do_ssl then
           logger_info "Trying SSL handshake" ;;;
           (* [ssl_sock] stays unbound when the handler passes *)
           ssl_sock <- try_except
                         (s <- lift (ssl_wrap env) ;; ret (Some s))
                         (fun e =>
                            match e with
                            | SSLError => Some (ret None)
                            | _ => None
                            end) ;;
           let metrics :=
             Metrics.Add metrics "ssl_handshake_time"
               (PyFloat (total_seconds (ssl_done_at env - start))) start in
           match ssl_sock with
           | None => raise UnboundLocalError
           | Some None => raise TypeError
           | Some (Some cert) =>
               ret (Metrics.Add metrics "ssl_cert_length"
                      (PyInt (Z.of_nat (List.length cert))) start)
           end
         else ret metrics) ;;
      emit Close ;;;
      ret (Metrics.Prefixed metrics prefixes)
  end.

(** *** GatherServerHttpMetrics *)

Definition make_request (args : Args) (schema : string) (server : server_t) : Request :=
  let h1 :=
    match host args with
    | Some h => if truthy (host args) then [("Host", h)] else []
    | None => []
    end in
  let h2 :=
    match user args with
    | Some u =>
        if truthy (user args)
        then [("Authorization", "Basic " ++ b64encode u)] else []
    | None => []
    end in
  {| url := schema ++ "://" ++ snd server ++ path args;
     headers := (h1 ++ h2)%list |}.

Definition GatherServerHttpMetrics (args : Args) (schema : string)
           (server : server_t) (env : HttpEnv) : M Metrics.t :=
  let metrics := Metrics.init in
  let start := http_start env in
  let prefixes := [PfxStr (fst server); PfxStr schema] in
  let request := make_request args schema server in
  logger_info "Requesting %s" ;;;
  r <- try_except
         (code <- lift (http_urlopen env request (timeout args)) ;;
          logger_debug "Response: %d %s\n%s" ;;;
          ret (inl (metrics, code)))
         (fun e =>
            match e with
            | HTTPError code =>
                Some (logger_warning "HTTP Error" ;;;
                      let metrics := Metrics.Add metrics "errors" (PyInt 1) start in
                      ret (inl (metrics, code)))
            | URLError reason =>
                Some (let metrics := Metrics.Add metrics "errors" (PyInt 1) start in
                      metrics <-
                        match reason with
                        | ReasonTimeout =>
                            logger_warning "Timeout" ;;;
                            ret (Metrics.Add metrics "timeout" (PyInt 1) start)
                        | ReasonOther =>
                            let metrics := Metrics.Add metrics "errors" (PyInt 1) start in
                            logger_error "Failed" ;;;
                            ret metrics
                        end ;;
                      ret (inr (Metrics.Prefixed metrics prefixes)))
            | _ => None
            end) ;;
  match r with
  | inr early => ret early
  | inl (metrics, code) =>
      first <- lift (http_read1 env) ;;
      let size := Z.of_nat (String.length first) in
      let metrics :=
        Metrics.Add metrics "time_to_first_byte"
          (PyFloat (total_seconds (http_first_at env - start))) start in
      rest <- lift (http_read_rest env) ;;
      let size := size + Z.of_nat (String.length rest) in
      let metrics :=
        Metrics.Add metrics "time_to_last_byte"
          (PyFloat (total_seconds (http_last_at env - start))) start in
      let metrics := Metrics.Add metrics "code" (PyInt code) start in
      let metrics := Metrics.Add metrics "size" (PyInt size) start in
      ret (Metrics.Prefixed metrics prefixes)
  end.

(** *** GatherPingMetrics *)

Definition ping_argv (args : Args) (server : server_t) : list string :=
  ["ping"; "-c"; "1"; "-w"; str_of_int (timeout args); "-q"; snd server].

(** The [for] loop over the items of the group dict. *)
Definition add_groups (metrics : Metrics.t) (items : list (string * string))
           (start : datetime) : Metrics.t :=
  fold_left (fun acc mv => Metrics.Add acc (fst mv) (PyStr (snd mv)) start)
            items metrics.

Definition GatherPingMetrics (args : Args) (server : server_t)
           (env : PingEnv) : M Metrics.t :=
  let metrics := Metrics.init in
  let start := ping_start env in
  logger_info "Pinging %s" ;;;
  r <- try_except
         (output <- lift (ping_check_output env (ping_argv args server)) ;;
          ret (inl output))
         (fun e =>
            match e with
            | CalledProcessError returncode =>
                Some (if returncode =? 1 then
                        logger_warning "Timeout" ;;;
                        ret (inr (Metrics.Add metrics "timeout" (PyInt 1) start))
                      else
                        let metrics := Metrics.Add metrics "errors" (PyInt 1) start in
                        logger_error "Failed" ;;;
                        ret (inr metrics))
            | _ => None
            end) ;;
  metrics <-
    match r with
    | inr metrics => ret metrics
    | inl output =>
        (* the [else] clause of the [try] *)
        match re_search output with
        | None => raise AttributeError
        | Some g => ret (add_groups metrics (dict_items (groupdict g)) start)
        end
    end ;;
  ret (Metrics.Prefixed metrics [PfxStr (fst server); PfxStr "ping"]).

(** *** GatherAllMetrics *)

(** [reduce(lambda a, b: a+b, ...)] over a generator of probe calls: the
    calls run in order, an exception of one leaves the reduction, and an
    empty generator is a [TypeError]. *)
Fixpoint reduce_add_from (acc : Metrics.t) (calls : list (M Metrics.t))
  : M Metrics.t :=
  match calls with
  | [] => ret acc
  | c :: calls' => b <- c ;; reduce_add_from (Metrics.add acc b) calls'
  end.

Definition reduce_add (calls : list (M Metrics.t)) : M Metrics.t :=
  match calls with
  | [] => raise TypeError
  | c :: calls' => a <- c ;; reduce_add_from a calls'
  end.

(** [(f(x, s) for x in xs for s in args.server)] *)
Definition for_for {X : Type} (xs : list X) (servers : list server_t)
           (f : X -> server_t -> M Metrics.t) : list (M Metrics.t) :=
  flat_map (fun x => map (fun s => f x s) servers) xs.

Definition GatherAllMetrics (args : Args) (env : CycleEnv) : M Metrics.t :=
  http_metrics <-
    reduce_add (for_for (scheme args) (server args)
      (fun schema s => GatherServerHttpMetrics args schema s (env_http env schema s))) ;;
  socket_metrics <-
    reduce_add (for_for (sock_port args) (server args)
      (fun port s => GatherServerSocketMetrics args s port false (env_sock env s port false))) ;;
  ssl_metrics <-
    reduce_add (for_for (ssl_port args) (server args)
      (fun port s => GatherServerSocketMetrics args s port true (env_sock env s port true))) ;;
  if ping args then
    ping_metrics <-
      reduce_add (map (fun s => GatherPingMetrics args s (env_ping env s)) (server args)) ;;
    ret (Metrics.add (Metrics.add (Metrics.add http_metrics socket_metrics)
                        ssl_metrics) ping_metrics)
  else
    ret (Metrics.add (Metrics.add http_metrics socket_metrics) ssl_metrics).

(** *** LoopOnce *)

Definition LoopOnce (args : Args) (env : CycleEnv) : M unit :=
  gathered <- GatherAllMetrics args env ;;
  let metrics :=
    Metrics.Prefixed gathered [PfxStr "loga"; PfxStr (identifier args)] in
  SendMetrics metrics (graphite args, graphite_port args) (env_send env).

(** *** MainLoop *)

Definition overrun_fmt : string :=
  "Data collection took longer than update period: %s > %s".

(** The body of [while True], from the value of [last_time] at its start
    to the value at its end. *)
Definition MainLoop_body (args : Args) (last_time : datetime)
           (env : CycleEnv) : M datetime :=
  let next_time := last_time + period args in
  LoopOnce args env ;;;
  let last_time := env_now env in
  (if last_time <? next_time
   then emit (Sleep (next_time - last_time))
   else logger_error overrun_fmt) ;;;
  let last_time := next_time in
  ret last_time.

(** The loop on as many cycles as environments are supplied; the value is
    [last_time] when they are used up and the loop is still running. *)
Fixpoint MainLoop_from (args : Args) (last_time : datetime)
         (envs : list CycleEnv) : M datetime :=
  match envs with
  | [] => ret last_time
  | env :: envs' =>
      last_time' <- MainLoop_body args last_time env ;;
      MainLoop_from args last_time' envs'
  end.

(** [utcnow] is the first reading of the clock. *)
Definition MainLoop (args : Args) (utcnow : datetime) (envs : list CycleEnv)
  : M datetime :=
  let last_time := utcnow in
  MainLoop_from args last_time envs.

End Program.

(** The pickle of the empty list under protocol 2: PROTO 2, EMPTY_LIST,
    BINPUT 0, STOP. Used where a statement needs some value of
    [pickle.dumps]. *)
Definition pickle_of_empty_list : list byte := [x80; x02; x5d; x71; x00; x2e].

(** ** Reference definitions for the statements

    [run_calls] runs probe calls one after the other and collects what they
    return; [all_calls] lists the probe calls of one cycle in the order of
    [GatherAllMetrics]; [no_match_before] says that the pattern matches at
    no position inside [pre] when [pre] is followed by [rest]. *)

Fixpoint run_calls (calls : list (M Metrics.t)) : M (list Metrics.t) :=
  match calls with
  | [] => ret []
  | c :: calls' =>
      m <- c ;;
      ms <- run_calls calls' ;;
      ret (m :: ms)
  end.


Fixpoint no_match_before (pre rest : string) : bool :=
  match pre with
  | EmptyString => true
  | String c pre' =>
      match match_here (pre ++ rest) with
      | Some _ => false
      | None => no_match_before pre' rest
      end
  end.

(** The samples of a probe: all with the timestamp of the start instant and
    all named under the prefix of the probe. *)
Definition probe_samples (start : datetime) (ps : list prefix_arg)
           (ms : Metrics.t) : Prop :=
  Forall (fun s =>
            Metrics.timestamp s = total_seconds (start - epoch) /\
            prefix (Metrics.prefix_str ps) (Metrics.name s) = true) ms.

(** A computation only appends events, each of them satisfying [P]. *)
Definition only_adds {A : Type} (P : event -> Prop) (c : M A) : Prop :=
  forall tr, exists events,
    snd (c tr) = (tr ++ events)%list /\ Forall P events.

(** Any event but a sleep. *)
Definition is_not_sleep (e : event) : Prop :=
  match e with
  | Sleep _ => False
  | _ => True
  end.

(** A sleep is for a positive time; any other event is allowed. *)
Definition sleep_is_positive (e : event) : Prop :=
  match e with
  | Sleep d => 0 < d
  | _ => True
  end.

(** ** Sample inputs

    Concrete command lines and environments, used to run the program in the
    statements below. *)

Module Samples.

(** One server, the default ports and scheme, no ping. *)
Definition args0 : Args :=
  {| timeout := 300; graphite := "graphite.example"; graphite_port := 2004;
     period := 60000000; server := [("srv", "srv.example")];
     sock_port := [80]; ssl_port := [443]; scheme := ["https"];
     host := None; user := None; path := "/"; ping := false;
     identifier := "id" |}.

(** The same with [--ping]. *)
Definition args_ping : Args :=
  {| timeout := 300; graphite := "graphite.example"; graphite_port := 2004;
     period := 60000000; server := [("srv", "srv.example")];
     sock_port := [80]; ssl_port := [443]; scheme := ["https"];
     host := None; user := None; path := "/"; ping := true;
     identifier := "id" |}.

(** A command line without any server. *)
Definition args_no_server : Args :=
  {| timeout := 300; graphite := "graphite.example"; graphite_port := 2004;
     period := 60000000; server := [];
     sock_port := [80]; ssl_port := [443]; scheme := ["https"];
     host := None; user := None; path := "/"; ping := false;
     identifier := "id" |}.

Definition srv : server_t := ("srv", "srv.example").

(** The connection succeeds after 4 microseconds; the handshake gives a
    certificate of three bytes after 7. *)
Definition sock_ok : SockEnv :=
  {| sock_start := 5; sock_connect := Ret tt; sock_connected_at := 9;
     ssl_wrap := Ret (Some [x30; x82; x01]); ssl_done_at := 12 |}.

Definition sock_timed_out : SockEnv :=
  {| sock_start := 5; sock_connect := Raise SocketTimeout;
     sock_connected_at := 9; ssl_wrap := Raise SSLError; ssl_done_at := 12 |}.

Definition sock_refused : SockEnv :=
  {| sock_start := 5; sock_connect := Raise SocketError;
     sock_connected_at := 9; ssl_wrap := Raise SSLError; ssl_done_at := 12 |}.

(** The connection succeeds and the handshake fails. *)
Definition sock_handshake_fails : SockEnv :=
  {| sock_start := 5; sock_connect := Ret tt; sock_connected_at := 9;
     ssl_wrap := Raise SSLError; ssl_done_at := 12 |}.

(** Status 200 and the body [hello]. *)
Definition http_ok : HttpEnv :=
  {| http_start := 20; http_urlopen := fun _ _ => Ret 200;
     http_read1 := Ret "h"; http_first_at := 23;
     http_read_rest := Ret "ello"; http_last_at := 26 |}.

Definition http_refused : HttpEnv :=
  {| http_start := 20;
     http_urlopen := fun _ _ => Raise (URLError ReasonOther);
     http_read1 := Ret "h"; http_first_at := 23;
     http_read_rest := Ret "ello"; http_last_at := 26 |}.

Definition http_timed_out : HttpEnv :=
  {| http_start := 20;
     http_urlopen := fun _ _ => Raise (URLError ReasonTimeout);
     http_read1 := Ret "h"; http_first_at := 23;
     http_read_rest := Ret "ello"; http_last_at := 26 |}.

(** Status 404 with the body [gone]. *)
Definition http_not_found : HttpEnv :=
  {| http_start := 20; http_urlopen := fun _ _ => Raise (HTTPError 404);
     http_read1 := Ret "g"; http_first_at := 23;
     http_read_rest := Ret "one"; http_last_at := 26 |}.

(** Status 200, and the read of the first byte times out. *)
Definition http_read_times_out : HttpEnv :=
  {| http_start := 20; http_urlopen := fun _ _ => Ret 200;
     http_read1 := Raise SocketTimeout; http_first_at := 23;
     http_read_rest := Ret "ello"; http_last_at := 26 |}.

(** The handshake succeeds and the peer gives no certificate. *)
Definition sock_no_certificate : SockEnv :=
  {| sock_start := 5; sock_connect := Ret tt; sock_connected_at := 9;
     ssl_wrap := Ret None; ssl_done_at := 12 |}.

(** The ping utility exits with 0 and prints the summary line. *)
Definition ping_summary : PingEnv :=
  {| ping_start := 30;
     ping_check_output := fun _ =>
       Ret "1 packets transmitted, 1 received; rtt min/avg/max/mdev = 1.0/2.0/3.0/0.5 ms" |}.

(** The ping utility exits with 0 and prints no summary line. *)
Definition ping_no_summary : PingEnv :=
  {| ping_start := 30;
     ping_check_output := fun _ => Ret "1 packets transmitted, 1 received" |}.

(** The ping utility exits with 1: no reply within the timeout. *)
Definition ping_no_reply : PingEnv :=
  {| ping_start := 30;
     ping_check_output := fun _ => Raise (CalledProcessError 1) |}.

Definition send_ok : SendEnv :=
  {| send_connect := Ret tt; send_sendall := Ret tt |}.

(** The collector refuses the connection. *)
Definition send_refused : SendEnv :=
  {| send_connect := Raise SocketError; send_sendall := Ret tt |}.

(** The connection is made and the write fails. *)
Definition send_broken : SendEnv :=
  {| send_connect := Ret tt; send_sendall := Raise SocketError |}.

(** A cycle in which every probe and the send succeed, over after [now]. *)
Definition cycle_ok (now : datetime) : CycleEnv :=
  {| env_http := fun _ _ => http_ok; env_sock := fun _ _ _ => sock_ok;
     env_ping := fun _ => ping_summary; env_send := send_ok;
     env_now := now |}.

(** A cycle in which the probes succeed and the send fails. *)
Definition cycle_send_refused (now : datetime) : CycleEnv :=
  {| env_http := fun _ _ => http_ok; env_sock := fun _ _ _ => sock_ok;
     env_ping := fun _ => ping_summary; env_send := send_refused;
     env_now := now |}.

(** A cycle in which the handshake on the SSL port fails. *)
Definition cycle_handshake_fails (now : datetime) : CycleEnv :=
  {| env_http := fun _ _ => http_ok;
     env_sock := fun _ _ do_ssl =>
       if do_ssl then sock_handshake_fails else sock_ok;
     env_ping := fun _ => ping_summary; env_send := send_ok;
     env_now := now |}.

(** A cycle in which ping prints no summary line. *)
Definition cycle_ping_no_summary (now : datetime) : CycleEnv :=
  {| env_http := fun _ _ => http_ok; env_sock := fun _ _ _ => sock_ok;
     env_ping := fun _ => ping_no_summary; env_send := send_ok;
     env_now := now |}.

(** Stand-ins for the library functions: every list pickles to the pickle
    of the empty list, base64 is the identity, and a dict lists its items
    in the order of insertion. *)
Definition dumps (_ : Metrics.t) : list byte := pickle_of_empty_list.
Definition b64 (s : string) : string := s.
Definition items (l : list (string * string)) : list (string * string) := l.

End Samples.

(** * Properties *)

(** ** Small facts on strings *)

Lemma append_assoc (a b c : string) : (a ++ b) ++ c = a ++ (b ++ c).
Proof.
  induction a as [|ch a IH]; simpl; [reflexivity|].
  now rewrite IH.
Qed.

Lemma append_nil_r (a : string) : a ++ EmptyString = a.
Proof.
  induction a as [|ch a IH]; simpl; [reflexivity|].
  now rewrite IH.
Qed.

Lemma join_empty_app (l1 l2 : list string) :
  join_empty (l1 ++ l2)%list = join_empty l1 ++ join_empty l2.
Proof.
  induction l1 as [|s l1 IH]; simpl; [reflexivity|].
  now rewrite IH, append_assoc.
Qed.

Lemma prefix_str_app (ps qs : list prefix_arg) :
  Metrics.prefix_str (ps ++ qs)%list = Metrics.prefix_str ps ++ Metrics.prefix_str qs.
Proof.
  unfold Metrics.prefix_str. now rewrite map_app, join_empty_app.
Qed.

(** ** Prefixed: renaming, composition, distribution over [+] *)

(** Prefixed keeps the length, the timestamps and the values. *)
Lemma Prefixed_length (m : Metrics.t) (ps : list prefix_arg) :
  List.length (Metrics.Prefixed m ps) = List.length m.
Proof. unfold Metrics.Prefixed. apply length_map. Qed.

Lemma Prefixed_payload (m : Metrics.t) (ps : list prefix_arg) :
  map snd (Metrics.Prefixed m ps) = map snd m.
Proof.
  unfold Metrics.Prefixed. rewrite map_map. reflexivity.
Qed.

Lemma Prefixed_names (m : Metrics.t) (ps : list prefix_arg) :
  map fst (Metrics.Prefixed m ps)
  = map (fun n => Metrics.prefix_str ps ++ n) (map fst m).
Proof.
  unfold Metrics.Prefixed. now rewrite !map_map.
Qed.

(** Two applications are one application of the second prefixes followed by
    the first: every application writes its prefix to the left of the name
    it finds. *)
Lemma Prefixed_Prefixed (m : Metrics.t) (ps qs : list prefix_arg) :
  Metrics.Prefixed (Metrics.Prefixed m ps) qs = Metrics.Prefixed m (qs ++ ps)%list.
Proof.
  unfold Metrics.Prefixed. rewrite map_map. apply map_ext.
  intros [n v]; simpl. now rewrite prefix_str_app, append_assoc.
Qed.

(** [Prefixed(p1, p2)] returns a new list in which every
    sample named [x] is named [p1.p2.x], with its timestamp and its value
    unchanged. *)
Lemma Prefixed_two_parts (m : Metrics.t) (p1 p2 : string) :
  Metrics.Prefixed m [PfxStr p1; PfxStr p2]
  = map (fun s => (p1 ++ "." ++ p2 ++ "." ++ Metrics.name s,
                   (Metrics.timestamp s, Metrics.value s))) m.
Proof.
  unfold Metrics.Prefixed. apply map_ext. intros [x [ts v]].
  unfold Metrics.prefix_str, Metrics.name, Metrics.timestamp, Metrics.value.
  simpl. now rewrite append_nil_r, !append_assoc.
Qed.

(** C9, as the code has it. [Prefixed(p1, p2)] renames a sample [x] to
    [p1.p2.x] and keeps timestamps and values; two applications compose with
    the prefixes of the second application to the left of those of the
    first: [m.Prefixed(ps).Prefixed(qs)] is [m.Prefixed(qs, ps)]. *)
Theorem Prefixed_renames_and_composes :
  (forall (m : Metrics.t) (p1 p2 : string),
      Metrics.Prefixed m [PfxStr p1; PfxStr p2]
      = map (fun s => (p1 ++ "." ++ p2 ++ "." ++ Metrics.name s,
                       (Metrics.timestamp s, Metrics.value s))) m) /\
  (forall (m : Metrics.t) (ps qs : list prefix_arg),
      Metrics.Prefixed (Metrics.Prefixed m ps) qs
      = Metrics.Prefixed m (qs ++ ps)%list).
Proof.
  split.
  - apply Prefixed_two_parts.
  - apply Prefixed_Prefixed.
Qed.

(** C9 as stated fails: [Prefixed(p1)] followed by [Prefixed(p2)] does not
    give the name [p1.p2.x] that [Prefixed(p1, p2)] gives, it gives
    [p2.p1.x]. *)
Lemma Prefixed_twice_is_right_to_left :
  let m := [("x", (SecondsOfMicro 5, PyInt 1))] in
  Metrics.Prefixed (Metrics.Prefixed m [PfxStr "p1"]) [PfxStr "p2"]
  = [("p2.p1.x", (SecondsOfMicro 5, PyInt 1))] /\
  Metrics.Prefixed m [PfxStr "p1"; PfxStr "p2"]
  = [("p1.p2.x", (SecondsOfMicro 5, PyInt 1))] /\
  Metrics.Prefixed (Metrics.Prefixed m [PfxStr "p1"]) [PfxStr "p2"]
  <> Metrics.Prefixed m [PfxStr "p1"; PfxStr "p2"].
Proof.
  cbv zeta. repeat split; try reflexivity.
  intro H. vm_compute in H. discriminate H.
Qed.

(** C10. Prefixing distributes over [+]: the prefixed concatenation is the
    concatenation of the prefixed operands, as the same sequence. *)
Theorem Prefixed_add_distr (A B : Metrics.t) (ps : list prefix_arg) :
  Metrics.Prefixed (Metrics.add A B) ps
  = Metrics.add (Metrics.Prefixed A ps) (Metrics.Prefixed B ps).
Proof.
  unfold Metrics.Prefixed, Metrics.add. apply map_app.
Qed.

(** X1. [a + b] holds the samples of [a] followed by those of [b], in their
    order: its first [len(a)] samples are [a], what follows them is [b], and
    its length is the sum of the two lengths. *)
Theorem add_is_concatenation (A B : Metrics.t) :
  firstn (List.length A) (Metrics.add A B) = A /\
  skipn (List.length A) (Metrics.add A B) = B /\
  List.length (Metrics.add A B) = (List.length A + List.length B)%nat.
Proof.
  unfold Metrics.add. repeat split.
  - induction A as [|x A IH]; cbn [List.length firstn app].
    + now destruct B.
    + now rewrite IH.
  - induction A as [|x A IH]; cbn [List.length skipn app];
      [reflexivity | exact IH].
  - apply length_app.
Qed.

(** ** Serialize: the length header *)

Lemma Z_of_byte_of_Z (z : Z) : Z_of_byte (byte_of_Z z) = z mod 256.
Proof.
  unfold Z_of_byte, byte_of_Z.
  assert (Hm : 0 <= z mod 256 < 256) by (apply Z.mod_pos_bound; lia).
  destruct (Byte.of_N (Z.to_N (z mod 256))) as [b|] eqn:E.
  - apply Byte.to_of_N in E. rewrite E. apply Z2N.id. lia.
  - apply Byte.of_N_None_iff in E. lia.
Qed.

Lemma big_endian_four (b3 b2 b1 b0 : byte) :
  big_endian [b3; b2; b1; b0]
  = ((Z_of_byte b3 * 256 + Z_of_byte b2) * 256 + Z_of_byte b1) * 256 + Z_of_byte b0.
Proof. unfold big_endian. cbn [fold_left]. reflexivity. Qed.

Lemma struct_pack_L_in_range (n : Z) :
  0 <= n < 2 ^ 32 ->
  exists header,
    struct_pack_L n = Ret header /\
    List.length header = 4%nat /\
    big_endian header = n.
Proof.
  intros Hn. unfold struct_pack_L.
  assert (Hb : (0 <=? n) && (n <? 2 ^ 32) = true).
  { apply andb_true_iff. split; [apply Z.leb_le | apply Z.ltb_lt]; lia. }
  rewrite Hb.
  exists [byte_of_Z (Z.shiftr n 24); byte_of_Z (Z.shiftr n 16);
          byte_of_Z (Z.shiftr n 8); byte_of_Z n].
  split; [reflexivity|]. split; [reflexivity|].
  rewrite big_endian_four, !Z_of_byte_of_Z.
  rewrite !Z.shiftr_div_pow2 by lia.
  change (2 ^ 24) with 16777216. change (2 ^ 16) with 65536.
  change (2 ^ 8) with 256. change (2 ^ 32) with 4294967296 in Hn.
  replace (n / 65536) with (n / 256 / 256)
    by (rewrite Z.div_div by lia; reflexivity).
  replace (n / 16777216) with (n / 256 / 256 / 256)
    by (rewrite !Z.div_div by lia; reflexivity).
  assert (H3 : 0 <= n / 256 / 256 / 256 < 256).
  { rewrite !Z.div_div by lia. split.
    - apply Z.div_pos; lia.
    - apply Z.div_lt_upper_bound; lia. }
  rewrite (Z.mod_small (n / 256 / 256 / 256)) by lia.
  pose proof (Z.div_mod n 256 ltac:(lia)) as H0.
  pose proof (Z.div_mod (n / 256) 256 ltac:(lia)) as H1.
  pose proof (Z.div_mod (n / 256 / 256) 256 ltac:(lia)) as H2.
  lia.
Qed.

Lemma struct_pack_L_out_of_range (n : Z) :
  2 ^ 32 <= n -> struct_pack_L n = Raise StructError.
Proof.
  intros Hn. unfold struct_pack_L.
  assert (Hb : (n <? 2 ^ 32) = false) by (apply Z.ltb_ge; lia).
  now rewrite Hb, andb_false_r.
Qed.

(** C8. The output of [Serialize] is a header followed by the payload, the
    payload being [pickle.dumps] of the list of [(name, (seconds, value))]
    pairs and the header the four bytes that denote, most significant byte
    first, the length of the payload. The payload length fits the four
    bytes of the header (it is below [2^32]). *)
Theorem Serialize_header_payload
        (pickle_dumps : Metrics.t -> list byte) (self : Metrics.t) :
  Z.of_nat (List.length (pickle_dumps self)) < 2 ^ 32 ->
  exists header,
    Serialize pickle_dumps self = Ret (header ++ pickle_dumps self)%list /\
    List.length header = 4%nat /\
    big_endian header = Z.of_nat (List.length (pickle_dumps self)).
Proof.
  intros Hlen. unfold Serialize.
  destruct (struct_pack_L_in_range (Z.of_nat (List.length (pickle_dumps self))))
    as (header & Hpack & Hfour & Hvalue); [lia|].
  exists header. now rewrite Hpack.
Qed.

Lemma Serialize_header_payload_witness :
  exists header,
    Serialize (fun _ => pickle_of_empty_list) Metrics.init
    = Ret (header ++ pickle_of_empty_list)%list /\
    List.length header = 4%nat /\
    big_endian header = 6.
Proof.
  apply (Serialize_header_payload (fun _ => pickle_of_empty_list) Metrics.init).
  vm_compute. reflexivity.
Defined.

(** Past four bytes there is no header: [struct.pack] raises. *)
Lemma Serialize_too_long
      (pickle_dumps : Metrics.t -> list byte) (self : Metrics.t) :
  2 ^ 32 <= Z.of_nat (List.length (pickle_dumps self)) ->
  Serialize pickle_dumps self = Raise StructError.
Proof.
  intros Hlen. unfold Serialize. now rewrite struct_pack_L_out_of_range.
Qed.

(** ** Probes *)

Lemma prefixed_name_str_int (a : string) (p : Z) (x : string) :
  Metrics.prefix_str [PfxStr a; PfxInt p] ++ x
  = a ++ "." ++ str_of_int p ++ "." ++ x.
Proof.
  unfold Metrics.prefix_str. cbn [map format_prefix join_empty].
  now rewrite append_nil_r, !append_assoc.
Qed.

Lemma prefixed_name_str_str (a b x : string) :
  Metrics.prefix_str [PfxStr a; PfxStr b] ++ x = a ++ "." ++ b ++ "." ++ x.
Proof.
  unfold Metrics.prefix_str. cbn [map format_prefix join_empty].
  now rewrite append_nil_r, !append_assoc.
Qed.

(** Unfold the operations of the trace monad. *)
Ltac run_monad :=
  unfold bind, try_except, lift, ret, raise,
    logger_debug, logger_info, logger_warning, logger_error, emit.

(** Bring a trace to the form [tr ++ events]. *)
Ltac flatten_trace :=
  repeat rewrite <- app_assoc; cbn [app].

(** C7. When the connection attempt times out the probe returns the one
    sample [<server>.<port>.timeout] with value 1, and when it fails
    otherwise the one sample [<server>.<port>.errors] with value 1; either
    way no [connect_time] is recorded and nothing is done after the log
    record of the failure. *)
Theorem tcp_connect_failure_one_sample
        (args : Args) (server : server_t) (port : Z) (do_ssl : bool)
        (env : SockEnv) (tr : trace) :
  (sock_connect env = Raise SocketTimeout ->
   GatherServerSocketMetrics args server port do_ssl env tr
   = (Ret [(fst server ++ "." ++ str_of_int port ++ ".timeout",
            (total_seconds (sock_start env - epoch), PyInt 1))],
      (tr ++ [Log INFO "Trying TCP connect to %s:%d";
              Log WARNING "Timeout"])%list)) /\
  (sock_connect env = Raise SocketError ->
   GatherServerSocketMetrics args server port do_ssl env tr
   = (Ret [(fst server ++ "." ++ str_of_int port ++ ".errors",
            (total_seconds (sock_start env - epoch), PyInt 1))],
      (tr ++ [Log INFO "Trying TCP connect to %s:%d";
              Log ERROR "Failed"])%list)).
Proof.
  split; intros H; unfold GatherServerSocketMetrics; run_monad; rewrite H;
    unfold Metrics.Prefixed, Metrics.Add, Metrics.init;
    cbn [app map fst snd]; rewrite prefixed_name_str_int; flatten_trace;
    reflexivity.
Qed.

Lemma tcp_connect_failure_one_sample_witness :
  GatherServerSocketMetrics Samples.args0 Samples.srv 80 false
    Samples.sock_timed_out []
  = (Ret [("srv.80.timeout", (SecondsOfMicro 5, PyInt 1))],
     [Log INFO "Trying TCP connect to %s:%d"; Log WARNING "Timeout"]) /\
  GatherServerSocketMetrics Samples.args0 Samples.srv 80 false
    Samples.sock_refused []
  = (Ret [("srv.80.errors", (SecondsOfMicro 5, PyInt 1))],
     [Log INFO "Trying TCP connect to %s:%d"; Log ERROR "Failed"]).
Proof.
  split.
  - apply (proj1 (tcp_connect_failure_one_sample Samples.args0 Samples.srv 80
                    false Samples.sock_timed_out [])).
    reflexivity.
  - apply (proj2 (tcp_connect_failure_one_sample Samples.args0 Samples.srv 80
                    false Samples.sock_refused [])).
    reflexivity.
Defined.

(** X3. On success the TCP probe records the one sample [connect_time],
    the time from the start to the connection, and closes the socket. *)
Lemma tcp_connect_success
      (args : Args) (server : server_t) (port : Z) (env : SockEnv) (tr : trace) :
  sock_connect env = Ret tt ->
  GatherServerSocketMetrics args server port false env tr
  = (Ret [(fst server ++ "." ++ str_of_int port ++ ".connect_time",
           (total_seconds (sock_start env - epoch),
            PyFloat (total_seconds (sock_connected_at env - sock_start env))))],
     (tr ++ [Log INFO "Trying TCP connect to %s:%d"; Close])%list).
Proof.
  intros H. unfold GatherServerSocketMetrics. run_monad. rewrite H.
  unfold Metrics.Prefixed, Metrics.Add, Metrics.init.
  cbn [app map fst snd]. rewrite prefixed_name_str_int. flatten_trace.
  reflexivity.
Qed.

(** C2, what the code does. When the connection succeeds and
    [ssl.wrap_socket] raises [ssl.SSLError], the handler passes, the
    handshake time is added to the local [metrics], and reading the unbound
    [ssl_sock] raises [UnboundLocalError]: the probe returns no sample and
    does not close the socket. *)
Theorem ssl_handshake_failure_raises
        (args : Args) (server : server_t) (port : Z) (env : SockEnv) (tr : trace) :
  sock_connect env = Ret tt ->
  ssl_wrap env = Raise SSLError ->
  GatherServerSocketMetrics args server port true env tr
  = (Raise UnboundLocalError,
     (tr ++ [Log INFO "Trying TCP connect to %s:%d";
             Log INFO "Trying SSL handshake"])%list).
Proof.
  intros Hc Hw. unfold GatherServerSocketMetrics. run_monad.
  rewrite Hc, Hw. flatten_trace. reflexivity.
Qed.

Lemma ssl_handshake_failure_raises_witness :
  GatherServerSocketMetrics Samples.args0 Samples.srv 443 true
    Samples.sock_handshake_fails []
  = (Raise UnboundLocalError,
     [Log INFO "Trying TCP connect to %s:%d"; Log INFO "Trying SSL handshake"]).
Proof.
  apply (ssl_handshake_failure_raises Samples.args0 Samples.srv 443
           Samples.sock_handshake_fails []); reflexivity.
Defined.

(** X4. When the handshake succeeds the probe records [connect_time], the
    handshake time since the start and the length of the certificate, and
    closes the socket. *)
Lemma ssl_handshake_success
      (args : Args) (server : server_t) (port : Z) (env : SockEnv)
      (cert : list byte) (tr : trace) :
  sock_connect env = Ret tt ->
  ssl_wrap env = Ret (Some cert) ->
  GatherServerSocketMetrics args server port true env tr
  = (Ret [(fst server ++ "." ++ str_of_int port ++ ".connect_time",
           (total_seconds (sock_start env - epoch),
            PyFloat (total_seconds (sock_connected_at env - sock_start env))));
          (fst server ++ "." ++ str_of_int port ++ ".ssl_handshake_time",
           (total_seconds (sock_start env - epoch),
            PyFloat (total_seconds (ssl_done_at env - sock_start env))));
          (fst server ++ "." ++ str_of_int port ++ ".ssl_cert_length",
           (total_seconds (sock_start env - epoch),
            PyInt (Z.of_nat (List.length cert))))],
     (tr ++ [Log INFO "Trying TCP connect to %s:%d";
             Log INFO "Trying SSL handshake"; Close])%list).
Proof.
  intros Hc Hw. unfold GatherServerSocketMetrics. run_monad.
  rewrite Hc, Hw.
  unfold Metrics.Prefixed, Metrics.Add, Metrics.init.
  cbn [app map fst snd]. rewrite !prefixed_name_str_int. flatten_trace.
  reflexivity.
Qed.

(** X5. A [URLError] whose reason is a [socket.timeout]
    gives [errors=1] followed by [timeout=1] and no timing sample. *)
Lemma http_timeout_errors_and_timeout
      (b64encode : string -> string) (args : Args) (schema : string)
      (server : server_t) (env : HttpEnv) (tr : trace) :
  http_urlopen env (make_request b64encode args schema server) (timeout args)
  = Raise (URLError ReasonTimeout) ->
  GatherServerHttpMetrics b64encode args schema server env tr
  = (Ret [(fst server ++ "." ++ schema ++ ".errors",
           (total_seconds (http_start env - epoch), PyInt 1));
          (fst server ++ "." ++ schema ++ ".timeout",
           (total_seconds (http_start env - epoch), PyInt 1))],
     (tr ++ [Log INFO "Requesting %s"; Log WARNING "Timeout"])%list).
Proof.
  intros H. unfold GatherServerHttpMetrics. run_monad. rewrite H.
  unfold Metrics.Prefixed, Metrics.Add, Metrics.init.
  cbn [app map fst snd]. rewrite !prefixed_name_str_str. flatten_trace.
  reflexivity.
Qed.

(** C4, what the code does on the other half. A [URLError] with any other
    reason adds [errors] before the test of the reason and once more in its
    [else] branch: the probe returns two [errors] samples, not one. *)
Theorem http_other_failure_two_errors
        (b64encode : string -> string) (args : Args) (schema : string)
        (server : server_t) (env : HttpEnv) (tr : trace) :
  http_urlopen env (make_request b64encode args schema server) (timeout args)
  = Raise (URLError ReasonOther) ->
  GatherServerHttpMetrics b64encode args schema server env tr
  = (Ret [(fst server ++ "." ++ schema ++ ".errors",
           (total_seconds (http_start env - epoch), PyInt 1));
          (fst server ++ "." ++ schema ++ ".errors",
           (total_seconds (http_start env - epoch), PyInt 1))],
     (tr ++ [Log INFO "Requesting %s"; Log ERROR "Failed"])%list).
Proof.
  intros H. unfold GatherServerHttpMetrics. run_monad. rewrite H.
  unfold Metrics.Prefixed, Metrics.Add, Metrics.init.
  cbn [app map fst snd]. rewrite !prefixed_name_str_str. flatten_trace.
  reflexivity.
Qed.

Lemma http_other_failure_two_errors_witness :
  GatherServerHttpMetrics Samples.b64 Samples.args0 "https" Samples.srv
    Samples.http_refused []
  = (Ret [("srv.https.errors", (SecondsOfMicro 20, PyInt 1));
          ("srv.https.errors", (SecondsOfMicro 20, PyInt 1))],
     [Log INFO "Requesting %s"; Log ERROR "Failed"]).
Proof.
  apply (http_other_failure_two_errors Samples.b64 Samples.args0 "https"
           Samples.srv Samples.http_refused []).
  reflexivity.
Defined.

(** X7. An HTTP error response adds [errors=1] and the probe goes on to the
    timing, code and size samples, as for a response without error. *)
Lemma http_error_response
      (b64encode : string -> string) (args : Args) (schema : string)
      (server : server_t) (env : HttpEnv) (code : Z) (first rest : string)
      (tr : trace) :
  http_urlopen env (make_request b64encode args schema server) (timeout args)
  = Raise (HTTPError code) ->
  http_read1 env = Ret first ->
  http_read_rest env = Ret rest ->
  GatherServerHttpMetrics b64encode args schema server env tr
  = (Ret [(fst server ++ "." ++ schema ++ ".errors",
           (total_seconds (http_start env - epoch), PyInt 1));
          (fst server ++ "." ++ schema ++ ".time_to_first_byte",
           (total_seconds (http_start env - epoch),
            PyFloat (total_seconds (http_first_at env - http_start env))));
          (fst server ++ "." ++ schema ++ ".time_to_last_byte",
           (total_seconds (http_start env - epoch),
            PyFloat (total_seconds (http_last_at env - http_start env))));
          (fst server ++ "." ++ schema ++ ".code",
           (total_seconds (http_start env - epoch), PyInt code));
          (fst server ++ "." ++ schema ++ ".size",
           (total_seconds (http_start env - epoch),
            PyInt (Z.of_nat (String.length first)
                   + Z.of_nat (String.length rest))))],
     (tr ++ [Log INFO "Requesting %s"; Log WARNING "HTTP Error"])%list).
Proof.
  intros H H1 H2. unfold GatherServerHttpMetrics. run_monad.
  rewrite H, H1, H2.
  unfold Metrics.Prefixed, Metrics.Add, Metrics.init.
  cbn [app map fst snd]. rewrite !prefixed_name_str_str. flatten_trace.
  reflexivity.
Qed.

(** ** The search for the ping summary line *)

Lemma strip_prefix_sound (p s r : string) :
  strip_prefix p s = Some r -> s = p ++ r.
Proof.
  revert s. induction p as [|a p IH]; intros s H; simpl in H.
  - now inversion H.
  - destruct s as [|b s]; [discriminate|].
    destruct (Ascii.eqb a b) eqn:E; [|discriminate].
    apply Ascii.eqb_eq in E. subst b. simpl. f_equal. now apply IH.
Qed.

Lemma strip_prefix_complete (p r : string) :
  strip_prefix p (p ++ r) = Some r.
Proof.
  induction p as [|a p IH]; simpl; [reflexivity|].
  now rewrite Ascii.eqb_refl.
Qed.

Lemma span_class_sound (s a r : string) :
  span_class s = (a, r) -> s = a ++ r /\ all_class a = true.
Proof.
  revert a r. induction s as [|c s IH]; intros a r H; simpl in H.
  - inversion H. split; reflexivity.
  - destruct (is_digit_or_dot c) eqn:E.
    + destruct (span_class s) as [a' r'] eqn:Es. inversion H; subst.
      destruct (IH a' r eq_refl) as [Hs Ha]. simpl. rewrite E, Ha.
      split; [now f_equal | reflexivity].
    + inversion H; subst. split; reflexivity.
Qed.

Lemma span_class_complete (a r : string) :
  all_class a = true -> starts_outside r = true ->
  span_class (a ++ r) = (a, r).
Proof.
  intros Ha Hr. induction a as [|c a IH]; simpl.
  - destruct r as [|c r]; [reflexivity|]. simpl in Hr.
    apply negb_true_iff in Hr. simpl. now rewrite Hr.
  - simpl in Ha. apply andb_true_iff in Ha as [Hc Ha].
    now rewrite Hc, (IH Ha).
Qed.

Lemma match_here_sound (s a b c d : string) :
  match_here s = Some (a, b, c, d) ->
  exists post,
    s = summary_line a b c d ++ post /\
    all_class a = true /\ all_class b = true /\
    all_class c = true /\ all_class d = true.
Proof.
  unfold match_here. intros H.
  destruct (strip_prefix rtt_literal s) as [r0|] eqn:E0; [|discriminate].
  destruct (span_class r0) as [a' r1] eqn:Ea.
  destruct (strip_prefix "/" r1) as [r2|] eqn:E1; [|discriminate].
  destruct (span_class r2) as [b' r3] eqn:Eb.
  destruct (strip_prefix "/" r3) as [r4|] eqn:E2; [|discriminate].
  destruct (span_class r4) as [c' r5] eqn:Ec.
  destruct (strip_prefix "/" r5) as [r6|] eqn:E3; [|discriminate].
  destruct (span_class r6) as [d' r7] eqn:Ed.
  destruct (strip_prefix " ms" r7) as [post|] eqn:E4; [|discriminate].
  inversion H; subst a' b' c' d'.
  apply strip_prefix_sound in E0, E1, E2, E3, E4.
  apply span_class_sound in Ea as [Ea Ha], Eb as [Eb Hb],
      Ec as [Ec Hc], Ed as [Ed Hd].
  exists post. repeat split; try assumption.
  unfold summary_line. subst s r0 r1 r2 r3 r4 r5 r6 r7.
  now rewrite !append_assoc.
Qed.

Lemma match_here_complete (a b c d post : string) :
  all_class a = true -> all_class b = true ->
  all_class c = true -> all_class d = true ->
  match_here (summary_line a b c d ++ post) = Some (a, b, c, d).
Proof.
  intros Ha Hb Hc Hd. unfold match_here, summary_line.
  rewrite !append_assoc, strip_prefix_complete.
  rewrite (span_class_complete a) by (assumption || reflexivity).
  rewrite (strip_prefix_complete "/").
  rewrite (span_class_complete b) by (assumption || reflexivity).
  rewrite (strip_prefix_complete "/").
  rewrite (span_class_complete c) by (assumption || reflexivity).
  rewrite (strip_prefix_complete "/").
  rewrite (span_class_complete d) by (assumption || reflexivity).
  now rewrite (strip_prefix_complete " ms").
Qed.

(** What the search returns is an occurrence of the pattern. *)
Lemma re_search_sound (s a b c d : string) :
  re_search s = Some (a, b, c, d) ->
  exists pre post,
    s = pre ++ summary_line a b c d ++ post /\
    all_class a = true /\ all_class b = true /\
    all_class c = true /\ all_class d = true.
Proof.
  induction s as [|ch s IH]; intros H.
  - simpl in H. discriminate.
  - cbn [re_search] in H.
    destruct (match_here (String ch s)) as [g|] eqn:E.
    + inversion H; subst g.
      apply match_here_sound in E as (post & Hs & Hcl).
      exists EmptyString, post. split; [exact Hs | exact Hcl].
    + destruct (IH H) as (pre & post & Hs & Hcl).
      exists (String ch pre), post. split; [|exact Hcl].
      simpl. now f_equal.
Qed.

(** The search finds a match whenever the output contains one. *)
Lemma re_search_complete (s : string) :
  contains_summary s -> exists g, re_search s = Some g.
Proof.
  intros (pre & a & b & c & d & post & Hs & Ha & Hb & Hc & Hd). subst s.
  induction pre as [|ch pre IH].
  - cbn [append]. exists (a, b, c, d).
    destruct (summary_line a b c d ++ post) eqn:E;
      cbn [re_search]; rewrite <- E, match_here_complete by assumption;
      reflexivity.
  - destruct IH as [g Hg]. cbn [append re_search].
    destruct (match_here (String ch (pre ++ summary_line a b c d ++ post)))
      as [g'|]; [now exists g' | now exists g].
Qed.

Lemma re_search_None (s : string) :
  ~ contains_summary s -> re_search s = None.
Proof.
  intros Hn. destruct (re_search s) as [[[[a b] c] d]|] eqn:E; [|reflexivity].
  exfalso. apply Hn. apply re_search_sound in E as (pre & post & Hs & Hcl).
  now exists pre, a, b, c, d, post.
Qed.

(** ** The ping probe *)

(** The loop over the items appends one sample per item, the value being the
    text of the group. *)
Lemma add_groups_map (metrics : Metrics.t) (items : list (string * string))
      (start : datetime) :
  add_groups metrics items start
  = (metrics
     ++ map (fun mv => (fst mv, (total_seconds (start - epoch), PyStr (snd mv))))
         items)%list.
Proof.
  unfold add_groups. revert metrics.
  induction items as [|mv items IH]; intros metrics; cbn [fold_left map].
  - now rewrite app_nil_r.
  - rewrite IH. unfold Metrics.Add. now rewrite <- app_assoc.
Qed.

(** C3, what the code does. When the utility exits with 0 and its output
    holds no match of the pattern, [re.search] returns [None] and the call
    of [groupdict] on it raises [AttributeError]: the probe returns no
    sample list. *)
Theorem ping_without_summary_raises
        (dict_items : list (string * string) -> list (string * string))
        (args : Args) (server : server_t) (env : PingEnv)
        (output : string) (tr : trace) :
  ping_check_output env (ping_argv args server) = Ret output ->
  ~ contains_summary output ->
  GatherPingMetrics dict_items args server env tr
  = (Raise AttributeError, (tr ++ [Log INFO "Pinging %s"])%list).
Proof.
  intros Hout Hno. unfold GatherPingMetrics. run_monad.
  rewrite Hout, (re_search_None output Hno). reflexivity.
Qed.

(** The sample output without summary line contains no match. *)
Lemma no_summary_in_sample : ~ contains_summary "1 packets transmitted, 1 received".
Proof.
  intros H. apply re_search_complete in H as [g Hg].
  vm_compute in Hg. discriminate Hg.
Qed.

Lemma ping_without_summary_raises_witness :
  GatherPingMetrics Samples.items Samples.args_ping Samples.srv
    Samples.ping_no_summary []
  = (Raise AttributeError, [Log INFO "Pinging %s"]).
Proof.
  apply (ping_without_summary_raises Samples.items Samples.args_ping
           Samples.srv Samples.ping_no_summary
           "1 packets transmitted, 1 received" []).
  - reflexivity.
  - exact no_summary_in_sample.
Defined.

(** The match the search returns is the leftmost: the pattern matches where
    it points and at no position before. *)
Lemma re_search_is_leftmost (s : string) (g : groups) :
  re_search s = Some g ->
  exists pre rest,
    s = pre ++ rest /\
    match_here rest = Some g /\
    no_match_before pre rest = true.
Proof.
  induction s as [|ch s IH]; intros H.
  - vm_compute in H. discriminate H.
  - cbn [re_search] in H.
    destruct (match_here (String ch s)) as [g'|] eqn:E.
    + inversion H; subst g'.
      exists EmptyString, (String ch s). now repeat split.
    + destruct (IH H) as (pre & rest & Hs & Hm & Hn).
      exists (String ch pre), rest. subst s. repeat split.
      * exact Hm.
      * cbn [no_match_before append]. now rewrite E.
Qed.

(** C5, as the code has it. When the utility exits with 0 and its output
    contains the summary line, the probe returns four samples named
    [<server>.ping.min], [.avg], [.max] and [.mdev], in the order in which
    the dict lists its items, and the value of each is the text matched by
    its group in the leftmost match (a str, not a float): the output is
    [pre], then the summary line with the texts [a], [b], [c], [d], runs of
    digits and dots, then [post], the pattern matches at no position inside
    [pre], and the four values are [a], [b], [c], [d]. *)
Theorem ping_summary_four_text_samples
        (dict_items : list (string * string) -> list (string * string))
        (args : Args) (server : server_t) (env : PingEnv)
        (output : string) (tr : trace) :
  (forall l, Permutation l (dict_items l)) ->
  ping_check_output env (ping_argv args server) = Ret output ->
  contains_summary output ->
  exists pre a b c d post samples,
    output = pre ++ summary_line a b c d ++ post /\
    (all_class a = true /\ all_class b = true /\
     all_class c = true /\ all_class d = true) /\
    no_match_before pre (summary_line a b c d ++ post) = true /\
    GatherPingMetrics dict_items args server env tr
    = (Ret samples, (tr ++ [Log INFO "Pinging %s"])%list) /\
    Permutation
      [(fst server ++ ".ping.min",
        (total_seconds (ping_start env - epoch), PyStr a));
       (fst server ++ ".ping.avg",
        (total_seconds (ping_start env - epoch), PyStr b));
       (fst server ++ ".ping.max",
        (total_seconds (ping_start env - epoch), PyStr c));
       (fst server ++ ".ping.mdev",
        (total_seconds (ping_start env - epoch), PyStr d))]
      samples.
Proof.
  intros Hperm Hout Hin.
  destruct (re_search_complete output Hin) as [[[[a b] c] d] Hg].
  destruct (re_search_is_leftmost output (a, b, c, d) Hg)
    as (pre & rest & Hs & Hm & Hn).
  destruct (match_here_sound rest a b c d Hm) as (post & Hrest & Hcl).
  subst rest.
  exists pre, a, b, c, d, post. eexists.
  split; [exact Hs|]. split; [exact Hcl|]. split; [exact Hn|].
  unfold GatherPingMetrics. run_monad. rewrite Hout, Hg.
  rewrite add_groups_map. unfold Metrics.init, Metrics.Prefixed.
  cbn [app]. rewrite map_map. cbn [fst snd].
  split; [reflexivity|].
  set (F := fun x : string * string =>
              (Metrics.prefix_str [PfxStr (fst server); PfxStr "ping"] ++ fst x,
               (total_seconds (ping_start env - epoch), PyStr (snd x)))).
  replace [_; _; _; _] with (map F (groupdict (a, b, c, d))).
  - apply Permutation_map, Hperm.
  - unfold F. cbn [map groupdict fst snd].
    now rewrite !prefixed_name_str_str.
Qed.

Lemma summary_in_sample :
  contains_summary
    "1 packets transmitted, 1 received; rtt min/avg/max/mdev = 1.0/2.0/3.0/0.5 ms".
Proof.
  exists "1 packets transmitted, 1 received; ", "1.0", "2.0", "3.0", "0.5",
    EmptyString.
  repeat split; reflexivity.
Qed.

Lemma ping_summary_four_text_samples_witness :
  exists pre a b c d post samples,
    "1 packets transmitted, 1 received; rtt min/avg/max/mdev = 1.0/2.0/3.0/0.5 ms"
    = pre ++ summary_line a b c d ++ post /\
    (all_class a = true /\ all_class b = true /\
     all_class c = true /\ all_class d = true) /\
    no_match_before pre (summary_line a b c d ++ post) = true /\
    GatherPingMetrics Samples.items Samples.args_ping Samples.srv
      Samples.ping_summary []
    = (Ret samples, [Log INFO "Pinging %s"]) /\
    Permutation
      [("srv.ping.min", (SecondsOfMicro 30, PyStr a));
       ("srv.ping.avg", (SecondsOfMicro 30, PyStr b));
       ("srv.ping.max", (SecondsOfMicro 30, PyStr c));
       ("srv.ping.mdev", (SecondsOfMicro 30, PyStr d))]
      samples.
Proof.
  apply (ping_summary_four_text_samples Samples.items Samples.args_ping
           Samples.srv Samples.ping_summary
           "1 packets transmitted, 1 received; rtt min/avg/max/mdev = 1.0/2.0/3.0/0.5 ms"
           []).
  - intros l. apply Permutation_refl.
  - reflexivity.
  - exact summary_in_sample.
Defined.

(** C5 as stated fails: on the output of the specification's example the
    four values are the texts ["1.0"], ["2.0"], ["3.0"], ["0.5"], and none
    of them is a float. *)
Lemma ping_values_are_text_not_floats :
  exists samples,
    GatherPingMetrics Samples.items Samples.args_ping Samples.srv
      Samples.ping_summary []
    = (Ret samples, [Log INFO "Pinging %s"]) /\
    samples = [("srv.ping.min", (SecondsOfMicro 30, PyStr "1.0"));
               ("srv.ping.avg", (SecondsOfMicro 30, PyStr "2.0"));
               ("srv.ping.max", (SecondsOfMicro 30, PyStr "3.0"));
               ("srv.ping.mdev", (SecondsOfMicro 30, PyStr "0.5"))] /\
    forallb (fun m => is_float (Metrics.value m)) samples = false /\
    existsb (fun m => is_float (Metrics.value m)) samples = false.
Proof.
  eexists. split; [vm_compute; reflexivity|].
  split; [reflexivity|]. split; reflexivity.
Qed.

(** With two summary lines in the output the values are those of the
    first. *)
Lemma ping_two_summaries_first_wins :
  re_search
    "rtt min/avg/max/mdev = 1.0/2.0/3.0/0.5 ms; rtt min/avg/max/mdev = 5/6/7/8 ms"
  = Some ("1.0", "2.0", "3.0", "0.5").
Proof. vm_compute. reflexivity. Qed.

(** X6. The exit code 1 of the ping utility gives the one sample
    [timeout=1] and any other exit code the one sample [errors=1]. *)
Lemma ping_exit_code
      (dict_items : list (string * string) -> list (string * string))
      (args : Args) (server : server_t) (env : PingEnv)
      (returncode : Z) (tr : trace) :
  ping_check_output env (ping_argv args server)
  = Raise (CalledProcessError returncode) ->
  GatherPingMetrics dict_items args server env tr
  = if returncode =? 1 then
      (Ret [(fst server ++ ".ping.timeout",
             (total_seconds (ping_start env - epoch), PyInt 1))],
       (tr ++ [Log INFO "Pinging %s"; Log WARNING "Timeout"])%list)
    else
      (Ret [(fst server ++ ".ping.errors",
             (total_seconds (ping_start env - epoch), PyInt 1))],
       (tr ++ [Log INFO "Pinging %s"; Log ERROR "Failed"])%list).
Proof.
  intros H. unfold GatherPingMetrics. run_monad. rewrite H.
  destruct (returncode =? 1);
    unfold Metrics.Prefixed, Metrics.Add, Metrics.init;
    cbn [app map fst snd]; rewrite prefixed_name_str_str; flatten_trace;
    reflexivity.
Qed.

(** ** The main loop *)

Section MainLoopFacts.

Variable pickle_dumps : Metrics.t -> list byte.
Variable b64encode : string -> string.
Variable dict_items : list (string * string) -> list (string * string).

(** The cycles run one after the other and an exception ends the run. *)
Lemma MainLoop_from_app (args : Args) (last_time : datetime)
      (before after : list CycleEnv) (tr : trace) :
  MainLoop_from pickle_dumps b64encode dict_items args last_time (before ++ after)%list tr
  = match MainLoop_from pickle_dumps b64encode dict_items args last_time before tr with
    | (Ret last_time', tr') => MainLoop_from pickle_dumps b64encode dict_items args last_time' after tr'
    | (Raise e, tr') => (Raise e, tr')
    end.
Proof.
  revert last_time tr.
  induction before as [|env before IH]; intros last_time tr.
  - reflexivity.
  - cbn [app MainLoop_from]. unfold bind.
    destruct (MainLoop_body pickle_dumps b64encode dict_items args last_time env tr)
      as [[lt|e] tr']; [apply IH | reflexivity].
Qed.

(** An exception of [LoopOnce] leaves the body of the loop. *)
Lemma MainLoop_body_raises (args : Args) (last_time : datetime)
      (env : CycleEnv) (e : exn) (tr tr1 : trace) :
  LoopOnce pickle_dumps b64encode dict_items args env tr = (Raise e, tr1) ->
  MainLoop_body pickle_dumps b64encode dict_items args last_time env tr = (Raise e, tr1).
Proof.
  unfold MainLoop_body. intros H.
  unfold bind at 1. now rewrite H.
Qed.

(** The body after a [LoopOnce] that returns. *)
Lemma MainLoop_body_returns (args : Args) (last_time : datetime)
      (env : CycleEnv) (tr tr1 : trace) :
  LoopOnce pickle_dumps b64encode dict_items args env tr = (Ret tt, tr1) ->
  MainLoop_body pickle_dumps b64encode dict_items args last_time env tr
  = (Ret (last_time + period args),
     (tr1 ++ [if env_now env <? last_time + period args
              then Sleep (last_time + period args - env_now env)
              else Log ERROR overrun_fmt])%list).
Proof.
  unfold MainLoop_body. intros H.
  unfold bind at 1. rewrite H. run_monad.
  destruct (env_now env <? last_time + period args); reflexivity.
Qed.

(** A failed send leaves [SendMetrics] after its three log records. *)
Lemma SendMetrics_failure (metrics : Metrics.t) (graphite_server : string * Z)
      (env : SendEnv) (data : list byte) (e : exn) (tr : trace) :
  Serialize pickle_dumps metrics = Ret data ->
  send_connect env = Raise e \/
  (send_connect env = Ret tt /\ send_sendall env = Raise e) ->
  SendMetrics pickle_dumps metrics graphite_server env tr
  = (Raise e,
     (tr ++ [Log INFO "sending metrics to %s:%d"; Log DEBUG "metrics: %r";
             Log DEBUG "serialized as: %r"])%list).
Proof.
  intros Hs Hf. unfold SendMetrics. run_monad. rewrite Hs.
  destruct Hf as [Hc | [Hc Hw]]; rewrite Hc; [|rewrite Hw];
    flatten_trace; reflexivity.
Qed.

(** X2. When every cycle returns, the loop has moved [last_time] by one
    period for each: after [n] cycles it is the first reading of the clock
    plus [n] periods. *)
Lemma MainLoop_from_no_drift (args : Args) (envs : list CycleEnv) :
  Forall (fun env => forall tr, exists tr1, LoopOnce pickle_dumps b64encode dict_items args env tr = (Ret tt, tr1))
         envs ->
  forall (last_time : datetime) (tr : trace),
  exists tr',
    MainLoop_from pickle_dumps b64encode dict_items args last_time envs tr
    = (Ret (last_time + Z.of_nat (List.length envs) * period args), tr').
Proof.
  induction 1 as [|env envs Henv _ IH]; intros last_time tr.
  - exists tr. cbn [MainLoop_from List.length]. unfold ret.
    f_equal. f_equal. lia.
  - destruct (Henv tr) as [tr1 H1].
    cbn [MainLoop_from]. unfold bind at 1.
    rewrite (MainLoop_body_returns _ _ _ _ _ H1).
    destruct (IH (last_time + period args)
                 (tr1 ++ [if env_now env <? last_time + period args
                          then Sleep (last_time + period args - env_now env)
                          else Log ERROR overrun_fmt])%list) as [tr' H'].
    exists tr'. rewrite H'. f_equal. f_equal.
    cbn [List.length]. lia.
Qed.

End MainLoopFacts.

(** The body returns the scheduled tick or raises. *)
Lemma MainLoop_body_value
      (pickle_dumps : Metrics.t -> list byte) (b64encode : string -> string)
      (dict_items : list (string * string) -> list (string * string))
      (args : Args) (last_time last_time' : datetime) (env : CycleEnv)
      (tr tr' : trace) :
  MainLoop_body pickle_dumps b64encode dict_items args last_time env tr
  = (Ret last_time', tr') ->
  last_time' = last_time + period args.
Proof.
  unfold MainLoop_body. unfold bind at 1.
  destruct (LoopOnce pickle_dumps b64encode dict_items args env tr)
    as [[[]|e] tr1]; [|discriminate].
  run_monad.
  destruct (env_now env <? last_time + period args);
    intros H; now inversion H.
Qed.

(** The cycles that were run to their end have each moved [last_time] by
    one period. *)
Lemma MainLoop_from_value
      (pickle_dumps : Metrics.t -> list byte) (b64encode : string -> string)
      (dict_items : list (string * string) -> list (string * string))
      (args : Args) (envs : list CycleEnv) :
  forall (last_time last_time' : datetime) (tr tr' : trace),
    MainLoop_from pickle_dumps b64encode dict_items args last_time envs tr
    = (Ret last_time', tr') ->
    last_time' = last_time + Z.of_nat (List.length envs) * period args.
Proof.
  induction envs as [|env envs IH]; intros last_time last_time' tr tr' H.
  - cbn [MainLoop_from] in H. unfold ret in H. inversion H.
    cbn [List.length]. lia.
  - cbn [MainLoop_from] in H. unfold bind at 1 in H.
    destruct (MainLoop_body pickle_dumps b64encode dict_items args last_time
                env tr) as [[lt|e] tr1] eqn:E; [|discriminate].
    apply MainLoop_body_value in E. apply IH in H. subst lt.
    rewrite H. cbn [List.length]. lia.
Qed.

(** C6. In every iteration of the loop in which [LoopOnce] returns, after
    any number of earlier iterations, [last_time] at the start of the
    iteration is the first reading of the clock plus one period for each
    earlier iteration, and the next iteration starts from
    [next_time = last_time + period], whatever the clock reads after the
    cycle: when the clock reads less than [next_time] the loop sleeps for
    the rest, [next_time - now], otherwise it logs the overrun and does not
    sleep, and either way it goes on with [last_time = next_time]. *)
Theorem MainLoop_baseline_is_scheduled_tick
        (pickle_dumps : Metrics.t -> list byte) (b64encode : string -> string)
        (dict_items : list (string * string) -> list (string * string))
        (args : Args) (utcnow : datetime)
        (before : list CycleEnv) (env : CycleEnv) (after : list CycleEnv)
        (last_time : datetime) (tr tr0 tr1 : trace) :
  MainLoop pickle_dumps b64encode dict_items args utcnow before tr
  = (Ret last_time, tr0) ->
  LoopOnce pickle_dumps b64encode dict_items args env tr0 = (Ret tt, tr1) ->
  let next_time := last_time + period args in
  last_time = utcnow + Z.of_nat (List.length before) * period args /\
  MainLoop pickle_dumps b64encode dict_items args utcnow
    (before ++ env :: after)%list tr
  = MainLoop_from pickle_dumps b64encode dict_items args next_time after
      (tr1 ++ [if env_now env <? next_time
               then Sleep (next_time - env_now env)
               else Log ERROR overrun_fmt])%list.
Proof.
  intros Hbefore Hloop next_time. subst next_time.
  unfold MainLoop in *. split.
  - exact (MainLoop_from_value _ _ _ _ _ _ _ _ _ Hbefore).
  - rewrite MainLoop_from_app, Hbefore. cbn [MainLoop_from].
    unfold bind at 1.
    now rewrite (MainLoop_body_returns pickle_dumps b64encode dict_items args
                   last_time env tr0 tr1 Hloop).
Qed.

Lemma MainLoop_baseline_is_scheduled_tick_witness :
  exists tr1 tr2,
    (60000000 = 0 + Z.of_nat (List.length [Samples.cycle_ok 10]) * 60000000 /\
     MainLoop Samples.dumps Samples.b64 Samples.items Samples.args0 0
       ([Samples.cycle_ok 10]
        ++ Samples.cycle_ok 70000000 :: [Samples.cycle_ok 200000000])%list []
     = MainLoop_from Samples.dumps Samples.b64 Samples.items Samples.args0
         120000000 [Samples.cycle_ok 200000000]
         (tr1 ++ [Sleep 50000000])%list) /\
    (60000000 = 0 + Z.of_nat (List.length [Samples.cycle_ok 10]) * 60000000 /\
     MainLoop Samples.dumps Samples.b64 Samples.items Samples.args0 0
       ([Samples.cycle_ok 10]
        ++ Samples.cycle_ok 130000000 :: [Samples.cycle_ok 200000000])%list []
     = MainLoop_from Samples.dumps Samples.b64 Samples.items Samples.args0
         120000000 [Samples.cycle_ok 200000000]
         (tr2 ++ [Log ERROR overrun_fmt])%list).
Proof.
  eexists. eexists. split.
  - eapply (MainLoop_baseline_is_scheduled_tick Samples.dumps Samples.b64
              Samples.items Samples.args0 0 [Samples.cycle_ok 10]
              (Samples.cycle_ok 70000000) [Samples.cycle_ok 200000000]
              60000000 []).
    + vm_compute. reflexivity.
    + vm_compute. reflexivity.
  - eapply (MainLoop_baseline_is_scheduled_tick Samples.dumps Samples.b64
              Samples.items Samples.args0 0 [Samples.cycle_ok 10]
              (Samples.cycle_ok 130000000) [Samples.cycle_ok 200000000]
              60000000 []).
    + vm_compute. reflexivity.
    + vm_compute. reflexivity.
Defined.

(** C1, as the code has it. [MainLoop] has no handler: when in some cycle
    the probes return and the send fails, on the connection or on the write,
    the exception leaves [LoopOnce] and the loop. Nothing is logged about
    it, the loop neither sleeps nor goes on to a later cycle, and the run
    ends with that exception. *)
Theorem send_failure_escapes_MainLoop
        (pickle_dumps : Metrics.t -> list byte) (b64encode : string -> string)
        (dict_items : list (string * string) -> list (string * string))
        (args : Args) (utcnow : datetime)
        (before : list CycleEnv) (env : CycleEnv) (after : list CycleEnv)
        (tr tr0 tr1 : trace) (last_time : datetime)
        (gathered : Metrics.t) (data : list byte) (e : exn) :
  MainLoop pickle_dumps b64encode dict_items args utcnow before tr
  = (Ret last_time, tr0) ->
  GatherAllMetrics b64encode dict_items args env tr0 = (Ret gathered, tr1) ->
  Serialize pickle_dumps
    (Metrics.Prefixed gathered [PfxStr "loga"; PfxStr (identifier args)])
  = Ret data ->
  send_connect (env_send env) = Raise e \/
  (send_connect (env_send env) = Ret tt /\
   send_sendall (env_send env) = Raise e) ->
  MainLoop pickle_dumps b64encode dict_items args utcnow
    (before ++ env :: after)%list tr
  = (Raise e,
     (tr1 ++ [Log INFO "sending metrics to %s:%d"; Log DEBUG "metrics: %r";
              Log DEBUG "serialized as: %r"])%list).
Proof.
  unfold MainLoop. intros Hbefore Hgather Hser Hfail.
  rewrite MainLoop_from_app, Hbefore. cbn [MainLoop_from].
  unfold bind at 1.
  rewrite (MainLoop_body_raises pickle_dumps b64encode dict_items args
             last_time env e tr0
             (tr1 ++ [Log INFO "sending metrics to %s:%d";
                      Log DEBUG "metrics: %r";
                      Log DEBUG "serialized as: %r"])%list); [reflexivity|].
  unfold LoopOnce. unfold bind at 1. rewrite Hgather.
  now apply SendMetrics_failure with (data := data).
Qed.

Lemma send_failure_escapes_MainLoop_witness :
  exists tr1,
    MainLoop Samples.dumps Samples.b64 Samples.items Samples.args0 0
      [Samples.cycle_ok 10; Samples.cycle_send_refused 20; Samples.cycle_ok 30]
      []
    = (Raise SocketError,
       (tr1 ++ [Log INFO "sending metrics to %s:%d"; Log DEBUG "metrics: %r";
                Log DEBUG "serialized as: %r"])%list).
Proof.
  eexists.
  eapply (send_failure_escapes_MainLoop Samples.dumps Samples.b64 Samples.items
            Samples.args0 0 [Samples.cycle_ok 10]
            (Samples.cycle_send_refused 20) [Samples.cycle_ok 30] []).
  - vm_compute. reflexivity.
  - vm_compute. reflexivity.
  - vm_compute. reflexivity.
  - left. reflexivity.
Defined.

(** C1 as stated fails: with a collector that refuses the connection in the
    first of two cycles, the run of the loop ends with the [socket.error] of
    that cycle. The trace ends with the log records of [SendMetrics]: no
    record reports the failure, and nothing of the second cycle is there. *)
Lemma send_failure_ends_the_loop :
  MainLoop Samples.dumps Samples.b64 Samples.items Samples.args0 0
    [Samples.cycle_send_refused 10; Samples.cycle_ok 20] []
  = (Raise SocketError,
     [Log INFO "Requesting %s"; Log DEBUG "Response: %d %s\n%s";
      Log INFO "Trying TCP connect to %s:%d"; Close;
      Log INFO "Trying TCP connect to %s:%d";
      Log INFO "Trying SSL handshake"; Close;
      Log INFO "sending metrics to %s:%d"; Log DEBUG "metrics: %r";
      Log DEBUG "serialized as: %r"]).
Proof. vm_compute. reflexivity. Qed.

(** The same two cycles with a collector that accepts: both are run, the
    loop sleeps after the first and is still running after the second. *)
Lemma two_cycles_run :
  exists tr,
    MainLoop Samples.dumps Samples.b64 Samples.items Samples.args0 0
      [Samples.cycle_ok 10; Samples.cycle_ok 130000000] []
    = (Ret 120000000, tr) /\
    In (Sleep 59999990) tr /\
    last tr Close = Log ERROR overrun_fmt.
Proof.
  eexists. split; [vm_compute; reflexivity|].
  split; [|reflexivity].
  cbn [In]. do 12 right. left. reflexivity.
Qed.

(** The exception of the socket probe leaves the cycle and the loop. With a
    handshake that fails in the first of two cycles nothing is sent and the
    second cycle is not run. *)
Lemma handshake_failure_ends_the_loop :
  MainLoop Samples.dumps Samples.b64 Samples.items Samples.args0 0
    [Samples.cycle_handshake_fails 10; Samples.cycle_ok 20] []
  = (Raise UnboundLocalError,
     [Log INFO "Requesting %s"; Log DEBUG "Response: %d %s\n%s";
      Log INFO "Trying TCP connect to %s:%d"; Close;
      Log INFO "Trying TCP connect to %s:%d";
      Log INFO "Trying SSL handshake"]).
Proof. vm_compute. reflexivity. Qed.

(** The exception of the ping probe leaves the cycle and the loop. *)
Lemma missing_summary_ends_the_loop :
  MainLoop Samples.dumps Samples.b64 Samples.items Samples.args_ping 0
    [Samples.cycle_ping_no_summary 10; Samples.cycle_ok 20] []
  = (Raise AttributeError,
     [Log INFO "Requesting %s"; Log DEBUG "Response: %d %s\n%s";
      Log INFO "Trying TCP connect to %s:%d"; Close;
      Log INFO "Trying TCP connect to %s:%d";
      Log INFO "Trying SSL handshake"; Close; Log INFO "Pinging %s"]).
Proof. vm_compute. reflexivity. Qed.

(** ** Runs of the statements above on the sample inputs *)

Lemma tcp_connect_success_witness :
  GatherServerSocketMetrics Samples.args0 Samples.srv 80 false Samples.sock_ok []
  = (Ret [("srv.80.connect_time",
           (SecondsOfMicro 5, PyFloat (SecondsOfMicro 4)))],
     [Log INFO "Trying TCP connect to %s:%d"; Close]).
Proof.
  apply (tcp_connect_success Samples.args0 Samples.srv 80 Samples.sock_ok []).
  reflexivity.
Defined.

Lemma ssl_handshake_success_witness :
  GatherServerSocketMetrics Samples.args0 Samples.srv 443 true Samples.sock_ok []
  = (Ret [("srv.443.connect_time",
           (SecondsOfMicro 5, PyFloat (SecondsOfMicro 4)));
          ("srv.443.ssl_handshake_time",
           (SecondsOfMicro 5, PyFloat (SecondsOfMicro 7)));
          ("srv.443.ssl_cert_length", (SecondsOfMicro 5, PyInt 3))],
     [Log INFO "Trying TCP connect to %s:%d"; Log INFO "Trying SSL handshake";
      Close]).
Proof.
  apply (ssl_handshake_success Samples.args0 Samples.srv 443 Samples.sock_ok
           [x30; x82; x01] []); reflexivity.
Defined.

Lemma http_timeout_errors_and_timeout_witness :
  GatherServerHttpMetrics Samples.b64 Samples.args0 "https" Samples.srv
    Samples.http_timed_out []
  = (Ret [("srv.https.errors", (SecondsOfMicro 20, PyInt 1));
          ("srv.https.timeout", (SecondsOfMicro 20, PyInt 1))],
     [Log INFO "Requesting %s"; Log WARNING "Timeout"]).
Proof.
  apply (http_timeout_errors_and_timeout Samples.b64 Samples.args0 "https"
           Samples.srv Samples.http_timed_out []).
  reflexivity.
Defined.

Lemma ping_exit_code_witness :
  GatherPingMetrics Samples.items Samples.args_ping Samples.srv
    Samples.ping_no_reply []
  = (Ret [("srv.ping.timeout", (SecondsOfMicro 30, PyInt 1))],
     [Log INFO "Pinging %s"; Log WARNING "Timeout"]).
Proof.
  apply (ping_exit_code Samples.items Samples.args_ping Samples.srv
           Samples.ping_no_reply 1 []).
  reflexivity.
Defined.

Lemma MainLoop_from_no_drift_witness :
  exists tr',
    MainLoop_from Samples.dumps Samples.b64 Samples.items Samples.args0 0
      [Samples.cycle_ok 10; Samples.cycle_ok 130000000] []
    = (Ret 120000000, tr').
Proof.
  apply (MainLoop_from_no_drift Samples.dumps Samples.b64 Samples.items
           Samples.args0 [Samples.cycle_ok 10; Samples.cycle_ok 130000000]).
  apply Forall_cons; [|apply Forall_cons; [|apply Forall_nil]];
    intros tr; eexists; cbv; reflexivity.
Defined.

Lemma http_error_response_witness :
  GatherServerHttpMetrics Samples.b64 Samples.args0 "https" Samples.srv
    Samples.http_not_found []
  = (Ret [("srv.https.errors", (SecondsOfMicro 20, PyInt 1));
          ("srv.https.time_to_first_byte",
           (SecondsOfMicro 20, PyFloat (SecondsOfMicro 3)));
          ("srv.https.time_to_last_byte",
           (SecondsOfMicro 20, PyFloat (SecondsOfMicro 6)));
          ("srv.https.code", (SecondsOfMicro 20, PyInt 404));
          ("srv.https.size", (SecondsOfMicro 20, PyInt 4))],
     [Log INFO "Requesting %s"; Log WARNING "HTTP Error"]).
Proof.
  apply (http_error_response Samples.b64 Samples.args0 "https" Samples.srv
           Samples.http_not_found 404 "g" "one" []); reflexivity.
Defined.

(** * Further properties *)

(** ** Metrics *)

Lemma prefix_append (p x : string) : prefix p (p ++ x) = true.
Proof.
  induction p as [|c p IH]; simpl.
  - now destruct x.
  - destruct (ascii_dec c c) as [_|n]; [exact IH | now elim n].
Qed.

(** X8. Every name of [m.Prefixed(ps)] begins with the prefix string
    of [ps], and the list has the timestamps and values of [m] in the same
    order. *)
Theorem Prefixed_names_start_with_prefix (m : Metrics.t) (ps : list prefix_arg) :
  Forall (fun s => prefix (Metrics.prefix_str ps) (Metrics.name s) = true)
         (Metrics.Prefixed m ps) /\
  map snd (Metrics.Prefixed m ps) = map snd m.
Proof.
  split.
  - unfold Metrics.Prefixed. apply Forall_forall. intros s Hs.
    apply in_map_iff in Hs as (s0 & <- & _).
    unfold Metrics.name. cbn [fst]. apply prefix_append.
  - unfold Metrics.Prefixed. now rewrite map_map.
Qed.

(** X9. Adding a sample and then prefixing is prefixing and then adding the
    sample under its prefixed name. *)
Theorem Prefixed_Add (m : Metrics.t) (param : string) (value : pyval)
        (time : datetime) (ps : list prefix_arg) :
  Metrics.Prefixed (Metrics.Add m param value time) ps
  = Metrics.Add (Metrics.Prefixed m ps) (Metrics.prefix_str ps ++ param)
      value time.
Proof.
  unfold Metrics.Prefixed, Metrics.Add. now rewrite map_app.
Qed.

(** ** The reductions of GatherAllMetrics *)

Lemma reduce_add_from_run_calls (calls : list (M Metrics.t)) :
  forall (acc : Metrics.t) (tr : trace),
    reduce_add_from acc calls tr
    = match run_calls calls tr with
      | (Ret ms, tr') => (Ret (acc ++ List.concat ms)%list, tr')
      | (Raise e, tr') => (Raise e, tr')
      end.
Proof.
  induction calls as [|c calls IH]; intros acc tr.
  - cbn [reduce_add_from run_calls List.concat]. unfold ret.
    now rewrite app_nil_r.
  - cbn [reduce_add_from run_calls]. unfold bind at 1 2.
    destruct (c tr) as [[m|e] tr1]; [|reflexivity].
    rewrite IH. unfold bind, ret.
    destruct (run_calls calls tr1) as [[ms|e] tr2]; [|reflexivity].
    cbn [List.concat]. unfold Metrics.add. now rewrite app_assoc.
Qed.

Lemma reduce_add_nonempty (calls : list (M Metrics.t)) (tr : trace) :
  calls <> [] ->
  reduce_add calls tr
  = match run_calls calls tr with
    | (Ret ms, tr') => (Ret (List.concat ms), tr')
    | (Raise e, tr') => (Raise e, tr')
    end.
Proof.
  intros Hne. destruct calls as [|c calls]; [now elim Hne|].
  cbn [reduce_add run_calls]. unfold bind at 1 2.
  destruct (c tr) as [[m|e] tr1]; [|reflexivity].
  rewrite reduce_add_from_run_calls. unfold bind, ret.
  destruct (run_calls calls tr1) as [[ms|e] tr2]; reflexivity.
Qed.

(** X10. [reduce(lambda a, b: a+b, calls)] runs the calls in order; when all
    return it returns the concatenation of their results in that order, the
    first exception of a call leaves the reduction before any later call is
    run, and on no call at all it raises [TypeError]. *)
Theorem reduce_add_concat (calls : list (M Metrics.t)) (tr : trace) :
  reduce_add calls tr
  = match calls with
    | [] => (Raise TypeError, tr)
    | _ :: _ =>
        match run_calls calls tr with
        | (Ret ms, tr') => (Ret (List.concat ms), tr')
        | (Raise e, tr') => (Raise e, tr')
        end
    end.
Proof.
  destruct calls as [|c calls]; [reflexivity|].
  apply reduce_add_nonempty. discriminate.
Qed.



Lemma for_for_no_server {X : Type} (xs : list X)
      (f : X -> server_t -> M Metrics.t) :
  for_for xs [] f = [].
Proof.
  unfold for_for. induction xs as [|x xs IH]; cbn [flat_map map app];
    [reflexivity | exact IH].
Qed.



(** X12. Without any server the first reduction is over no call:
    [GatherAllMetrics] raises [TypeError] and runs no probe. *)
Theorem GatherAllMetrics_no_server
        (b64encode : string -> string)
        (dict_items : list (string * string) -> list (string * string))
        (args : Args) (env : CycleEnv) (tr : trace) :
  server args = [] ->
  GatherAllMetrics b64encode dict_items args env tr = (Raise TypeError, tr).
Proof.
  intros Hsrv. unfold GatherAllMetrics. rewrite Hsrv, for_for_no_server.
  reflexivity.
Qed.

Lemma GatherAllMetrics_no_server_witness :
  GatherAllMetrics Samples.b64 Samples.items Samples.args_no_server
    (Samples.cycle_ok 10) []
  = (Raise TypeError, []).
Proof.
  apply (GatherAllMetrics_no_server Samples.b64 Samples.items
           Samples.args_no_server (Samples.cycle_ok 10) []).
  reflexivity.
Defined.

(** ** What every probe returns *)

Lemma probe_samples_Prefixed (start : datetime) (ps : list prefix_arg)
      (raw : Metrics.t) :
  Forall (fun s => Metrics.timestamp s = total_seconds (start - epoch)) raw ->
  probe_samples start ps (Metrics.Prefixed raw ps).
Proof.
  intros H. unfold probe_samples, Metrics.Prefixed.
  apply Forall_forall. intros s Hs.
  apply in_map_iff in Hs as (s0 & <- & Hin).
  rewrite Forall_forall in H. split.
  - exact (H s0 Hin).
  - unfold Metrics.name. cbn [fst]. apply prefix_append.
Qed.

Lemma Forall_Add (P : Metrics.metric -> Prop) (m : Metrics.t)
      (param : string) (value : pyval) (time : datetime) :
  Forall P m -> P (param, (total_seconds (time - epoch), value)) ->
  Forall P (Metrics.Add m param value time).
Proof.
  intros Hm Hp. unfold Metrics.Add. apply Forall_app. split; [exact Hm|].
  now constructor.
Qed.

Lemma Ret_inv {A : Type} (x y : A) (t t' : trace) :
  (Ret x, t) = (Ret y, t') -> x = y.
Proof. intros H. now inversion H. Qed.

(** Close a goal [(Ret (Prefixed raw ps), _) = (Ret ms, _) -> probe_samples]. *)
Ltac probe_returns :=
  let H := fresh in
  intros H; apply Ret_inv in H; rewrite <- H; apply probe_samples_Prefixed;
  repeat (apply Forall_Add; [|reflexivity]); apply Forall_nil.

(** X13. Whatever the connection and the handshake do, when the socket probe
    returns, every sample it returns has the start instant of the probe as
    its timestamp and a name under [<server>.<port>.]. *)
Theorem socket_probe_samples
        (args : Args) (server : server_t) (port : Z) (do_ssl : bool)
        (env : SockEnv) (tr tr' : trace) (ms : Metrics.t) :
  GatherServerSocketMetrics args server port do_ssl env tr = (Ret ms, tr') ->
  probe_samples (sock_start env) [PfxStr (fst server); PfxInt port] ms.
Proof.
  unfold GatherServerSocketMetrics. run_monad.
  destruct (sock_connect env) as [[]|[]]; try discriminate;
    try probe_returns.
  destruct do_ssl; [|probe_returns].
  destruct (ssl_wrap env) as [[cert|]|[]]; try discriminate; probe_returns.
Qed.

Lemma socket_probe_samples_witness :
  probe_samples 5 [PfxStr "srv"; PfxInt 443]
    [("srv.443.connect_time", (SecondsOfMicro 5, PyFloat (SecondsOfMicro 4)));
     ("srv.443.ssl_handshake_time",
      (SecondsOfMicro 5, PyFloat (SecondsOfMicro 7)));
     ("srv.443.ssl_cert_length", (SecondsOfMicro 5, PyInt 3))].
Proof.
  apply (socket_probe_samples Samples.args0 Samples.srv 443 true
           Samples.sock_ok []
           [Log INFO "Trying TCP connect to %s:%d";
            Log INFO "Trying SSL handshake"; Close]).
  reflexivity.
Defined.

(** X14. Whatever [urlopen] and the reads do, when the HTTP probe returns,
    every sample it returns has the start instant of the probe as its
    timestamp and a name under [<server>.<scheme>.]. *)
Theorem http_probe_samples
        (b64encode : string -> string) (args : Args) (schema : string)
        (server : server_t) (env : HttpEnv) (tr tr' : trace) (ms : Metrics.t) :
  GatherServerHttpMetrics b64encode args schema server env tr = (Ret ms, tr') ->
  probe_samples (http_start env) [PfxStr (fst server); PfxStr schema] ms.
Proof.
  unfold GatherServerHttpMetrics. run_monad.
  destruct (http_urlopen env (make_request b64encode args schema server)
              (timeout args)) as [code|[| | |code|[]| | | | | |]];
    try discriminate; try probe_returns;
    (destruct (http_read1 env) as [first|]; [|discriminate];
     destruct (http_read_rest env) as [rest|]; [|discriminate];
     probe_returns).
Qed.

Lemma http_probe_samples_witness :
  probe_samples 20 [PfxStr "srv"; PfxStr "https"]
    [("srv.https.time_to_first_byte",
      (SecondsOfMicro 20, PyFloat (SecondsOfMicro 3)));
     ("srv.https.time_to_last_byte",
      (SecondsOfMicro 20, PyFloat (SecondsOfMicro 6)));
     ("srv.https.code", (SecondsOfMicro 20, PyInt 200));
     ("srv.https.size", (SecondsOfMicro 20, PyInt 5))].
Proof.
  apply (http_probe_samples Samples.b64 Samples.args0 "https" Samples.srv
           Samples.http_ok []
           [Log INFO "Requesting %s"; Log DEBUG "Response: %d %s\n%s"]).
  reflexivity.
Defined.

(** X15. Whatever the ping utility does and in whatever order the dict lists
    its items, when the ping probe returns, every sample it returns has the
    start instant of the probe as its timestamp and a name under
    [<server>.ping.]. *)
Theorem ping_probe_samples
        (dict_items : list (string * string) -> list (string * string))
        (args : Args) (server : server_t) (env : PingEnv)
        (tr tr' : trace) (ms : Metrics.t) :
  GatherPingMetrics dict_items args server env tr = (Ret ms, tr') ->
  probe_samples (ping_start env) [PfxStr (fst server); PfxStr "ping"] ms.
Proof.
  unfold GatherPingMetrics. run_monad.
  destruct (ping_check_output env (ping_argv args server))
    as [output|[| | | | |rc| | | | |]]; try discriminate.
  - destruct (re_search output) as [g|]; [|discriminate].
    intros H; apply Ret_inv in H; rewrite <- H.
    apply probe_samples_Prefixed.
    rewrite add_groups_map. cbn [app Metrics.init].
    apply Forall_forall. intros s Hs.
    apply in_map_iff in Hs as (mv & <- & _). reflexivity.
  - destruct (rc =? 1); probe_returns.
Qed.

Lemma ping_probe_samples_witness :
  probe_samples 30 [PfxStr "srv"; PfxStr "ping"]
    [("srv.ping.min", (SecondsOfMicro 30, PyStr "1.0"));
     ("srv.ping.avg", (SecondsOfMicro 30, PyStr "2.0"));
     ("srv.ping.max", (SecondsOfMicro 30, PyStr "3.0"));
     ("srv.ping.mdev", (SecondsOfMicro 30, PyStr "0.5"))].
Proof.
  apply (ping_probe_samples Samples.items Samples.args_ping Samples.srv
           Samples.ping_summary [] [Log INFO "Pinging %s"]).
  reflexivity.
Defined.

(** ** Exceptions the probes let through *)

(** X16. After a successful connection the SSL probe returns if and only if
    [wrap_socket] returns a socket whose peer gave a certificate: on a
    handshake failure, on any other exception of [wrap_socket] and on a peer
    without certificate it raises. *)
Theorem ssl_probe_returns_iff
        (args : Args) (server : server_t) (port : Z) (env : SockEnv) (tr : trace) :
  sock_connect env = Ret tt ->
  (exists ms tr',
      GatherServerSocketMetrics args server port true env tr = (Ret ms, tr'))
  <-> (exists cert, ssl_wrap env = Ret (Some cert)).
Proof.
  intros Hc. split.
  - intros (ms & tr' & H). revert H.
    unfold GatherServerSocketMetrics. run_monad. rewrite Hc.
    destruct (ssl_wrap env) as [[cert|]|[]]; try discriminate.
    intros _. now exists cert.
  - intros (cert & Hw). eexists. eexists.
    unfold GatherServerSocketMetrics. run_monad. rewrite Hc, Hw.
    reflexivity.
Qed.

Lemma ssl_probe_returns_iff_witness :
  (exists ms tr',
      GatherServerSocketMetrics Samples.args0 Samples.srv 443 true
        Samples.sock_no_certificate [] = (Ret ms, tr'))
  <-> (exists cert, ssl_wrap Samples.sock_no_certificate = Ret (Some cert)).
Proof.
  apply (ssl_probe_returns_iff Samples.args0 Samples.srv 443
           Samples.sock_no_certificate []).
  reflexivity.
Defined.

(** X17. A peer without certificate makes the SSL probe raise [TypeError]
    after the handshake, without closing the socket. *)
Theorem ssl_no_certificate_raises
        (args : Args) (server : server_t) (port : Z) (env : SockEnv) (tr : trace) :
  sock_connect env = Ret tt ->
  ssl_wrap env = Ret None ->
  GatherServerSocketMetrics args server port true env tr
  = (Raise TypeError,
     (tr ++ [Log INFO "Trying TCP connect to %s:%d";
             Log INFO "Trying SSL handshake"])%list).
Proof.
  intros Hc Hw. unfold GatherServerSocketMetrics. run_monad.
  rewrite Hc, Hw. flatten_trace. reflexivity.
Qed.

Lemma ssl_no_certificate_raises_witness :
  GatherServerSocketMetrics Samples.args0 Samples.srv 443 true
    Samples.sock_no_certificate []
  = (Raise TypeError,
     [Log INFO "Trying TCP connect to %s:%d"; Log INFO "Trying SSL handshake"]).
Proof.
  apply (ssl_no_certificate_raises Samples.args0 Samples.srv 443
           Samples.sock_no_certificate []); reflexivity.
Defined.

(** X18. A response without error gives the four samples
    [time_to_first_byte], [time_to_last_byte], [code] and [size], the size
    being the number of bytes of both reads, and no [errors] sample. *)
Theorem http_success
        (b64encode : string -> string) (args : Args) (schema : string)
        (server : server_t) (env : HttpEnv) (code : Z) (first rest : string)
        (tr : trace) :
  http_urlopen env (make_request b64encode args schema server) (timeout args)
  = Ret code ->
  http_read1 env = Ret first ->
  http_read_rest env = Ret rest ->
  GatherServerHttpMetrics b64encode args schema server env tr
  = (Ret [(fst server ++ "." ++ schema ++ ".time_to_first_byte",
           (total_seconds (http_start env - epoch),
            PyFloat (total_seconds (http_first_at env - http_start env))));
          (fst server ++ "." ++ schema ++ ".time_to_last_byte",
           (total_seconds (http_start env - epoch),
            PyFloat (total_seconds (http_last_at env - http_start env))));
          (fst server ++ "." ++ schema ++ ".code",
           (total_seconds (http_start env - epoch), PyInt code));
          (fst server ++ "." ++ schema ++ ".size",
           (total_seconds (http_start env - epoch),
            PyInt (Z.of_nat (String.length first)
                   + Z.of_nat (String.length rest))))],
     (tr ++ [Log INFO "Requesting %s"; Log DEBUG "Response: %d %s\n%s"])%list).
Proof.
  intros H H1 H2. unfold GatherServerHttpMetrics. run_monad.
  rewrite H, H1, H2.
  unfold Metrics.Prefixed, Metrics.Add, Metrics.init.
  cbn [app map fst snd]. rewrite !prefixed_name_str_str. flatten_trace.
  reflexivity.
Qed.

Lemma http_success_witness :
  GatherServerHttpMetrics Samples.b64 Samples.args0 "https" Samples.srv
    Samples.http_ok []
  = (Ret [("srv.https.time_to_first_byte",
           (SecondsOfMicro 20, PyFloat (SecondsOfMicro 3)));
          ("srv.https.time_to_last_byte",
           (SecondsOfMicro 20, PyFloat (SecondsOfMicro 6)));
          ("srv.https.code", (SecondsOfMicro 20, PyInt 200));
          ("srv.https.size", (SecondsOfMicro 20, PyInt 5))],
     [Log INFO "Requesting %s"; Log DEBUG "Response: %d %s\n%s"]).
Proof.
  apply (http_success Samples.b64 Samples.args0 "https" Samples.srv
           Samples.http_ok 200 "h" "ello" []); reflexivity.
Defined.

(** X19. The reads of the body are outside the [try]: when the response was
    opened, with or without HTTP error, an exception of the first read, or
    of the second after the first returned, leaves the probe; no sample is
    returned, not even the [errors] of the HTTP error. *)
Theorem http_read_failure_raises
        (b64encode : string -> string) (args : Args) (schema : string)
        (server : server_t) (env : HttpEnv) (code : Z) (e : exn) (tr : trace) :
  http_urlopen env (make_request b64encode args schema server) (timeout args)
  = Ret code \/
  http_urlopen env (make_request b64encode args schema server) (timeout args)
  = Raise (HTTPError code) ->
  http_read1 env = Raise e \/
  ((exists first, http_read1 env = Ret first) /\ http_read_rest env = Raise e) ->
  exists tr',
    GatherServerHttpMetrics b64encode args schema server env tr = (Raise e, tr').
Proof.
  intros Hopen Hread. unfold GatherServerHttpMetrics. run_monad.
  destruct Hopen as [H|H]; rewrite H;
    destruct Hread as [H1|[[first H1] H2]]; rewrite H1; try rewrite H2;
    eexists; reflexivity.
Qed.

Lemma http_read_failure_raises_witness :
  exists tr',
    GatherServerHttpMetrics Samples.b64 Samples.args0 "https" Samples.srv
      Samples.http_read_times_out [] = (Raise SocketTimeout, tr').
Proof.
  apply (http_read_failure_raises Samples.b64 Samples.args0 "https" Samples.srv
           Samples.http_read_times_out 200 SocketTimeout []).
  - left. reflexivity.
  - left. reflexivity.
Defined.

(** ** Sending *)

(** X20. When the connection to the collector is made and the write fails,
    [SendMetrics] raises without closing the socket: nothing is sent and no
    close follows. *)
Theorem SendMetrics_write_failure_no_close
        (pickle_dumps : Metrics.t -> list byte) (metrics : Metrics.t)
        (graphite_server : string * Z) (env : SendEnv) (data : list byte)
        (e : exn) (tr : trace) :
  Serialize pickle_dumps metrics = Ret data ->
  send_connect env = Ret tt ->
  send_sendall env = Raise e ->
  exists events,
    SendMetrics pickle_dumps metrics graphite_server env tr
    = (Raise e, (tr ++ events)%list) /\
    ~ In Close events /\ ~ In (Sendall data) events.
Proof.
  intros Hs Hc Hw.
  exists [Log INFO "sending metrics to %s:%d"; Log DEBUG "metrics: %r";
          Log DEBUG "serialized as: %r"].
  split.
  - apply SendMetrics_failure with (data := data); [exact Hs|].
    right. now split.
  - split; cbn [In]; intros [H|[H|[H|[]]]]; discriminate H.
Qed.

Lemma SendMetrics_write_failure_no_close_witness :
  exists events,
    SendMetrics Samples.dumps Metrics.init ("graphite.example", 2004)
      Samples.send_broken []
    = (Raise SocketError, events) /\
    ~ In Close events /\
    ~ In (Sendall [x00; x00; x00; x06; x80; x02; x5d; x71; x00; x2e]) events.
Proof.
  apply (SendMetrics_write_failure_no_close Samples.dumps Metrics.init
           ("graphite.example", 2004) Samples.send_broken
           [x00; x00; x00; x06; x80; x02; x5d; x71; x00; x2e] SocketError []);
    reflexivity.
Defined.

(** X21. When the probes return and the collector accepts, [LoopOnce] sends
    one frame and closes: the four bytes of the length of the payload, then
    the payload, which is the pickle of the gathered samples prefixed with
    [loga.<identifier>.]. *)
Theorem LoopOnce_sends_prefixed_frame
        (pickle_dumps : Metrics.t -> list byte) (b64encode : string -> string)
        (dict_items : list (string * string) -> list (string * string))
        (args : Args) (env : CycleEnv) (gathered : Metrics.t)
        (tr tr1 : trace) :
  GatherAllMetrics b64encode dict_items args env tr = (Ret gathered, tr1) ->
  let payload :=
    pickle_dumps
      (Metrics.Prefixed gathered [PfxStr "loga"; PfxStr (identifier args)]) in
  Z.of_nat (List.length payload) < 2 ^ 32 ->
  send_connect (env_send env) = Ret tt ->
  send_sendall (env_send env) = Ret tt ->
  exists header,
    List.length header = 4%nat /\
    big_endian header = Z.of_nat (List.length payload) /\
    LoopOnce pickle_dumps b64encode dict_items args env tr
    = (Ret tt,
       (tr1 ++ [Log INFO "sending metrics to %s:%d"; Log DEBUG "metrics: %r";
                Log DEBUG "serialized as: %r";
                Sendall (header ++ payload)%list; Close])%list).
Proof.
  intros Hg payload Hlen Hc Hw.
  destruct (struct_pack_L_in_range (Z.of_nat (List.length payload)))
    as (header & Hpack & Hfour & Hvalue); [lia|].
  exists header. split; [exact Hfour|]. split; [exact Hvalue|].
  unfold LoopOnce. unfold bind at 1. rewrite Hg.
  unfold SendMetrics, Serialize. fold payload. rewrite Hpack.
  run_monad. rewrite Hc, Hw. flatten_trace. reflexivity.
Qed.

Lemma LoopOnce_sends_prefixed_frame_witness :
  exists header,
    List.length header = 4%nat /\
    big_endian header = 6 /\
    LoopOnce Samples.dumps Samples.b64 Samples.items Samples.args0
      (Samples.cycle_ok 10) []
    = (Ret tt,
       ([Log INFO "Requesting %s"; Log DEBUG "Response: %d %s\n%s";
         Log INFO "Trying TCP connect to %s:%d"; Close;
         Log INFO "Trying TCP connect to %s:%d";
         Log INFO "Trying SSL handshake"; Close]
        ++ [Log INFO "sending metrics to %s:%d"; Log DEBUG "metrics: %r";
            Log DEBUG "serialized as: %r";
            Sendall (header ++ pickle_of_empty_list)%list; Close])%list).
Proof.
  eapply (LoopOnce_sends_prefixed_frame Samples.dumps Samples.b64
            Samples.items Samples.args0 (Samples.cycle_ok 10) _ [] _).
  - vm_compute. reflexivity.
  - vm_compute. reflexivity.
  - reflexivity.
  - reflexivity.
Defined.

(** ** The main loop and exceptions *)

(** X22. Whatever exception leaves [LoopOnce] in some cycle, a probe's or
    the send's, it leaves the loop: the run ends with that exception where
    [LoopOnce] raised it, without overrun record or sleep, and whatever the
    later cycles would have been. *)
Theorem cycle_exception_ends_MainLoop
        (pickle_dumps : Metrics.t -> list byte) (b64encode : string -> string)
        (dict_items : list (string * string) -> list (string * string))
        (args : Args) (utcnow : datetime)
        (before : list CycleEnv) (env : CycleEnv) (after : list CycleEnv)
        (tr tr0 tr1 : trace) (last_time : datetime) (e : exn) :
  MainLoop pickle_dumps b64encode dict_items args utcnow before tr
  = (Ret last_time, tr0) ->
  LoopOnce pickle_dumps b64encode dict_items args env tr0 = (Raise e, tr1) ->
  MainLoop pickle_dumps b64encode dict_items args utcnow
    (before ++ env :: after)%list tr
  = (Raise e, tr1).
Proof.
  unfold MainLoop. intros Hbefore Hloop.
  rewrite MainLoop_from_app, Hbefore. cbn [MainLoop_from].
  unfold bind at 1.
  now rewrite (MainLoop_body_raises pickle_dumps b64encode dict_items args
                 last_time env e tr0 tr1 Hloop).
Qed.

Lemma cycle_exception_ends_MainLoop_witness :
  MainLoop Samples.dumps Samples.b64 Samples.items Samples.args_ping 0
    ([Samples.cycle_ok 10]
     ++ Samples.cycle_ping_no_summary 20 :: [Samples.cycle_ok 30])%list []
  = (Raise AttributeError,
     [Log INFO "Requesting %s"; Log DEBUG "Response: %d %s\n%s";
      Log INFO "Trying TCP connect to %s:%d"; Close;
      Log INFO "Trying TCP connect to %s:%d";
      Log INFO "Trying SSL handshake"; Close; Log INFO "Pinging %s";
      Log INFO "sending metrics to %s:%d"; Log DEBUG "metrics: %r";
      Log DEBUG "serialized as: %r";
      Sendall [x00; x00; x00; x06; x80; x02; x5d; x71; x00; x2e];
      Close; Sleep 59999990;
      Log INFO "Requesting %s"; Log DEBUG "Response: %d %s\n%s";
      Log INFO "Trying TCP connect to %s:%d"; Close;
      Log INFO "Trying TCP connect to %s:%d";
      Log INFO "Trying SSL handshake"; Close; Log INFO "Pinging %s"]).
Proof.
  eapply (cycle_exception_ends_MainLoop Samples.dumps Samples.b64
            Samples.items Samples.args_ping 0 [Samples.cycle_ok 10]
            (Samples.cycle_ping_no_summary 20) [Samples.cycle_ok 30] []).
  - vm_compute. reflexivity.
  - vm_compute. reflexivity.
Defined.

(** ** The leftmost match of the ping pattern *)

Lemma re_search_leftmost (pre rest : string) :
  no_match_before pre rest = true ->
  re_search (pre ++ rest) = re_search rest.
Proof.
  induction pre as [|c pre IH]; intros H; [reflexivity|].
  cbn [no_match_before] in H. cbn [append] in *.
  cbn [re_search].
  destruct (match_here (String c (pre ++ rest))); [discriminate|].
  now apply IH.
Qed.

Lemma re_search_at_match (s : string) (g : groups) :
  match_here s = Some g -> re_search s = Some g.
Proof.
  intros H. destruct s; cbn [re_search]; now rewrite H.
Qed.

(** X23. When the output of the ping utility is [pre], then the summary line
    with the texts [a], [b], [c], [d] (runs of digits and dots, possibly
    empty or with several dots), then anything, and the pattern matches
    nowhere inside [pre], the probe returns the four samples [min], [avg],
    [max], [mdev] with exactly these texts as values, in the order of the
    dict items. *)
Theorem ping_leftmost_summary_values
        (dict_items : list (string * string) -> list (string * string))
        (args : Args) (server : server_t) (env : PingEnv)
        (pre a b c d post : string) (tr : trace) :
  (forall l, Permutation l (dict_items l)) ->
  ping_check_output env (ping_argv args server)
  = Ret (pre ++ summary_line a b c d ++ post) ->
  all_class a = true -> all_class b = true ->
  all_class c = true -> all_class d = true ->
  no_match_before pre (summary_line a b c d ++ post) = true ->
  exists samples,
    GatherPingMetrics dict_items args server env tr
    = (Ret samples, (tr ++ [Log INFO "Pinging %s"])%list) /\
    Permutation
      [(fst server ++ ".ping.min",
        (total_seconds (ping_start env - epoch), PyStr a));
       (fst server ++ ".ping.avg",
        (total_seconds (ping_start env - epoch), PyStr b));
       (fst server ++ ".ping.max",
        (total_seconds (ping_start env - epoch), PyStr c));
       (fst server ++ ".ping.mdev",
        (total_seconds (ping_start env - epoch), PyStr d))]
      samples.
Proof.
  intros Hperm Hout Ha Hb Hc Hd Hpre.
  assert (Hg : re_search (pre ++ summary_line a b c d ++ post)
               = Some (a, b, c, d)).
  { rewrite (re_search_leftmost _ _ Hpre).
    apply re_search_at_match. now apply match_here_complete. }
  eexists. unfold GatherPingMetrics. run_monad. rewrite Hout, Hg.
  rewrite add_groups_map. unfold Metrics.init, Metrics.Prefixed.
  cbn [app]. rewrite map_map. cbn [fst snd].
  split; [reflexivity|].
  set (F := fun x : string * string =>
              (Metrics.prefix_str [PfxStr (fst server); PfxStr "ping"] ++ fst x,
               (total_seconds (ping_start env - epoch), PyStr (snd x)))).
  replace [_; _; _; _] with (map F (groupdict (a, b, c, d))).
  - apply Permutation_map, Hperm.
  - unfold F. cbn [map groupdict fst snd].
    now rewrite !prefixed_name_str_str.
Qed.

Lemma ping_leftmost_summary_values_witness :
  exists samples,
    GatherPingMetrics Samples.items Samples.args_ping Samples.srv
      Samples.ping_summary []
    = (Ret samples, [Log INFO "Pinging %s"]) /\
    Permutation
      [("srv.ping.min", (SecondsOfMicro 30, PyStr "1.0"));
       ("srv.ping.avg", (SecondsOfMicro 30, PyStr "2.0"));
       ("srv.ping.max", (SecondsOfMicro 30, PyStr "3.0"));
       ("srv.ping.mdev", (SecondsOfMicro 30, PyStr "0.5"))]
      samples.
Proof.
  apply (ping_leftmost_summary_values Samples.items Samples.args_ping
           Samples.srv Samples.ping_summary
           "1 packets transmitted, 1 received; " "1.0" "2.0" "3.0" "0.5"
           EmptyString []).
  - intros l. apply Permutation_refl.
  - reflexivity.
  - reflexivity.
  - reflexivity.
  - reflexivity.
  - reflexivity.
  - vm_compute. reflexivity.
Defined.

(** ** Sleeping *)

Section OnlyAdds.

Variable P : event -> Prop.

Lemma only_adds_ret {A : Type} (a : A) : only_adds P (ret a).
Proof. intros tr. exists []. split; [now rewrite app_nil_r | constructor]. Qed.

Lemma only_adds_raise {A : Type} (e : exn) : only_adds P (@raise A e).
Proof. intros tr. exists []. split; [now rewrite app_nil_r | constructor]. Qed.

Lemma only_adds_lift {A : Type} (r : result A) : only_adds P (lift r).
Proof. intros tr. exists []. split; [now rewrite app_nil_r | constructor]. Qed.

Lemma only_adds_emit (e : event) : P e -> only_adds P (emit e).
Proof. intros He tr. exists [e]. split; [reflexivity | now constructor]. Qed.

Lemma only_adds_bind {A B : Type} (c : M A) (k : A -> M B) :
  only_adds P c -> (forall a, only_adds P (k a)) -> only_adds P (bind c k).
Proof.
  intros Hc Hk tr. unfold bind.
  destruct (Hc tr) as (ev1 & E1 & F1).
  destruct (c tr) as [[a|e] tr1]; cbn [snd] in E1; subst tr1.
  - destruct (Hk a (tr ++ ev1)%list) as (ev2 & E2 & F2).
    exists (ev1 ++ ev2)%list. rewrite E2, app_assoc.
    split; [reflexivity | now apply Forall_app].
  - now exists ev1.
Qed.

Lemma only_adds_try {A : Type} (c : M A) (handler : exn -> option (M A)) :
  only_adds P c ->
  (forall e h, handler e = Some h -> only_adds P h) ->
  only_adds P (try_except c handler).
Proof.
  intros Hc Hh tr. unfold try_except.
  destruct (Hc tr) as (ev1 & E1 & F1).
  destruct (c tr) as [[a|e] tr1]; cbn [snd] in E1; subst tr1.
  - now exists ev1.
  - destruct (handler e) as [h|] eqn:Eh; [|now exists ev1].
    destruct (Hh e h Eh (tr ++ ev1)%list) as (ev2 & E2 & F2).
    exists (ev1 ++ ev2)%list. rewrite E2, app_assoc.
    split; [reflexivity | now apply Forall_app].
Qed.

Lemma only_adds_reduce_add_from (calls : list (M Metrics.t)) :
  Forall (only_adds P) calls ->
  forall acc, only_adds P (reduce_add_from acc calls).
Proof.
  induction 1 as [|c calls Hc _ IH]; intros acc; cbn [reduce_add_from].
  - apply only_adds_ret.
  - apply only_adds_bind; [exact Hc | intros b; apply IH].
Qed.

Lemma only_adds_reduce_add (calls : list (M Metrics.t)) :
  Forall (only_adds P) calls -> only_adds P (reduce_add calls).
Proof.
  intros H. destruct H as [|c calls Hc Hcalls]; cbn [reduce_add].
  - apply only_adds_raise.
  - apply only_adds_bind; [exact Hc|].
    intros a. now apply only_adds_reduce_add_from.
Qed.

Lemma only_adds_for_for {X : Type} (xs : list X) (servers : list server_t)
      (f : X -> server_t -> M Metrics.t) :
  (forall x s, only_adds P (f x s)) ->
  Forall (only_adds P) (for_for xs servers f).
Proof.
  intros Hf. unfold for_for. apply Forall_flat_map.
  apply Forall_forall. intros x _. apply Forall_map.
  apply Forall_forall. intros s _. apply Hf.
Qed.

End OnlyAdds.

Lemma only_adds_weaken {A : Type} (P Q : event -> Prop) (c : M A) :
  (forall e, P e -> Q e) -> only_adds P c -> only_adds Q c.
Proof.
  intros HPQ Hc tr. destruct (Hc tr) as (events & E & F).
  exists events. split; [exact E|].
  eapply Forall_impl; [exact HPQ | exact F].
Qed.

(** Take a computation apart down to its events. *)
Ltac only_adds_step :=
  first
    [ apply only_adds_ret
    | apply only_adds_raise
    | apply only_adds_lift
    | apply only_adds_emit; exact I
    | apply only_adds_bind; [|intros ?]
    | apply only_adds_try;
      [|let e := fresh "e" in
        let h := fresh "h" in
        let Hh := fresh "Hh" in
        intros e h Hh; destruct e; try discriminate Hh;
        injection Hh as <-]
    | match goal with
      | |- only_adds _ (match ?x with _ => _ end) => destruct x
      end ].

Ltac only_adds_tac :=
  cbv zeta;
  unfold logger_debug, logger_info, logger_warning, logger_error;
  repeat only_adds_step.

Lemma socket_probe_never_sleeps
      (args : Args) (server : server_t) (port : Z) (do_ssl : bool)
      (env : SockEnv) :
  only_adds is_not_sleep
            (GatherServerSocketMetrics args server port do_ssl env).
Proof. unfold GatherServerSocketMetrics. only_adds_tac. Qed.

Lemma http_probe_never_sleeps
      (b64encode : string -> string) (args : Args) (schema : string)
      (server : server_t) (env : HttpEnv) :
  only_adds is_not_sleep
            (GatherServerHttpMetrics b64encode args schema server env).
Proof. unfold GatherServerHttpMetrics. only_adds_tac. Qed.

Lemma ping_probe_never_sleeps
      (dict_items : list (string * string) -> list (string * string))
      (args : Args) (server : server_t) (env : PingEnv) :
  only_adds is_not_sleep (GatherPingMetrics dict_items args server env).
Proof. unfold GatherPingMetrics. only_adds_tac. Qed.

Lemma GatherAllMetrics_never_sleeps
      (b64encode : string -> string)
      (dict_items : list (string * string) -> list (string * string))
      (args : Args) (env : CycleEnv) :
  only_adds is_not_sleep (GatherAllMetrics b64encode dict_items args env).
Proof.
  unfold GatherAllMetrics.
  apply only_adds_bind.
  { apply only_adds_reduce_add, only_adds_for_for.
    intros; apply http_probe_never_sleeps. }
  intros http_metrics. apply only_adds_bind.
  { apply only_adds_reduce_add, only_adds_for_for.
    intros; apply socket_probe_never_sleeps. }
  intros socket_metrics. apply only_adds_bind.
  { apply only_adds_reduce_add, only_adds_for_for.
    intros; apply socket_probe_never_sleeps. }
  intros ssl_metrics. destruct (ping args).
  - apply only_adds_bind; [|intros; apply only_adds_ret].
    apply only_adds_reduce_add, Forall_map, Forall_forall.
    intros s _. apply ping_probe_never_sleeps.
  - apply only_adds_ret.
Qed.

Lemma LoopOnce_never_sleeps
      (pickle_dumps : Metrics.t -> list byte) (b64encode : string -> string)
      (dict_items : list (string * string) -> list (string * string))
      (args : Args) (env : CycleEnv) :
  only_adds is_not_sleep
            (LoopOnce pickle_dumps b64encode dict_items args env).
Proof.
  unfold LoopOnce. apply only_adds_bind.
  - apply GatherAllMetrics_never_sleeps.
  - intros gathered. unfold SendMetrics. only_adds_tac.
Qed.

(** X24. In any run of the main loop, over any number of cycles and whatever
    the probes, the send and the clock do, the loop only appends to what it
    has done so far, and every sleep it makes is for a positive time: it
    never calls [time.sleep] with zero or a negative duration. *)
Theorem MainLoop_sleeps_are_positive
        (pickle_dumps : Metrics.t -> list byte) (b64encode : string -> string)
        (dict_items : list (string * string) -> list (string * string))
        (args : Args) (utcnow : datetime) (envs : list CycleEnv) :
  only_adds sleep_is_positive
            (MainLoop pickle_dumps b64encode dict_items args utcnow envs).
Proof.
  unfold MainLoop. revert utcnow.
  induction envs as [|env envs IH]; intros last_time; cbn [MainLoop_from].
  - apply only_adds_ret.
  - apply only_adds_bind; [|intros last_time'; apply IH].
    unfold MainLoop_body. cbv zeta.
    apply only_adds_bind.
    { apply (only_adds_weaken is_not_sleep); [|apply LoopOnce_never_sleeps].
      intros [] H; try exact I. elim H. }
    intros _.
    apply only_adds_bind; [|intros _; apply only_adds_ret].
    destruct (env_now env <? last_time + period args) eqn:E.
    + apply only_adds_emit. cbn. apply Z.ltb_lt in E. lia.
    + apply only_adds_emit. exact I.
Qed.
